(** * Laxo Exchange: wallet ledger and trade settlement

    A shallow embedding of [src/main.py] and [src/schemas.py].

    - Python [float] quantities (balances, amounts, prices) are modelled as
      exact rationals [Q]; no claim below depends on rounding.
    - The MongoDB collections are lists of [(_id, document)] pairs in
      insertion order; [find_one] returns the first match, [update_one]
      rewrites the first match.
    - A request handler is a computation in the monad [M]: it threads the
      whole process state ([World]) and may raise.  As in Python, the writes
      made before an exception is raised stay in the state.
    - What the handler cannot decide itself is an input: the clock, the
      answer of the price API and whether the snapshot write goes through
      ([Env]); the password hash is a section variable. *)

From Stdlib Require Import List String Ascii Bool Arith ZArith QArith Lia Lqa.
Import ListNotations.

Local Open Scope string_scope.

(** ** Numbers *)

(** Python's [a < b] on two floats. *)
Definition Qltb (a b : Q) : bool := negb (Qle_bool b a).

(** ** Schemas ([src/schemas.py]) *)

(** [bson.ObjectId], and its [str(...)] form used as [user_id]. *)
Definition ObjectId := nat.

Inductive AccountStatus := st_new | st_kyc_pending | st_kyc_verified | st_funded.
Inductive DepositStatus := dep_created | dep_marked_paid | dep_approved | dep_rejected.
Inductive WithdrawalStatus := wd_created | wd_approved | wd_rejected.
Inductive Method := paypal.

Record User := mkUser {
  name : string;
  email : string;
  password_hash : string;
  account_status : AccountStatus;
  is_admin : bool }.

Record Wallet := mkWallet {
  w_user_id : ObjectId;
  w_asset : string;
  balance : Q;
  available : Q }.

Record Deposit := mkDeposit {
  d_user_id : ObjectId;
  d_asset : string;
  d_amount : Q;
  d_method : Method;
  d_destination : string;
  d_status : DepositStatus }.

Record Withdrawal := mkWithdrawal {
  wd_user_id : ObjectId;
  wd_asset : string;
  wd_amount : Q;
  wd_destination : string;
  wd_status : WithdrawalStatus }.

Record Order := mkOrder {
  o_user_id : ObjectId;
  o_side : string;
  o_base_asset : string;
  o_quote_asset : string;
  o_amount : Q;
  executed_price_usd : option Q;
  executed_value_usdt : option Q }.

Definition Prices := list (string * Q).

Record PriceSnapshot := mkPriceSnapshot {
  ps_timestamp : Z;
  ps_prices : Prices }.

Definition mem (s : string) (l : list string) : bool :=
  existsb (String.eqb s) l.

(** The [Literal[...]] annotations of the asset fields. *)
Definition Wallet_assets : list string := ["BTC"; "ETH"; "USDT"].
Definition Deposit_assets : list string := ["BTC"; "ETH"; "USDT"; "USD"].
Definition Withdrawal_assets : list string := ["BTC"; "ETH"; "USDT"; "USD"].
Definition Order_sides : list string := ["buy"; "sell"].
Definition Order_base_assets : list string := ["BTC"; "ETH"].

(** ** Process state, exceptions and the handler monad *)

Inductive Exn :=
| HTTPException (status_code : nat) (detail : string)
| ValidationError (model : string)
| TypeError
| KeyError (key : string)
| RequestError.

Inductive Outcome (A : Type) :=
| Ret (a : A)
| Raise (e : Exn).
Arguments Ret {A} a.
Arguments Raise {A} e.

Definition Coll (A : Type) := list (ObjectId * A).

Record World := mkWorld {
  users : Coll User;
  wallets : Coll Wallet;
  deposits : Coll Deposit;
  withdrawals : Coll Withdrawal;
  orders : Coll Order;
  pricesnapshots : Coll PriceSnapshot;
  next_oid : ObjectId;
  PRICE_CACHE : Prices;
  PRICE_CACHE_TS : option Z }.

Definition M (A : Type) := World -> Outcome A * World.

Definition ret {A} (a : A) : M A := fun s => (Ret a, s).
Definition raise {A} (e : Exn) : M A := fun s => (Raise e, s).
Definition bind {A B} (c : M A) (k : A -> M B) : M B :=
  fun s => match c s with
           | (Ret a, s') => k a s'
           | (Raise e, s') => (Raise e, s')
           end.
(** [try: c except Exception: h] *)
Definition try_except {A} (c : M A) (h : M A) : M A :=
  fun s => match c s with
           | (Ret a, s') => (Ret a, s')
           | (Raise _, s') => h s'
           end.
Definition get : M World := fun s => (Ret s, s).
Definition modify (f : World -> World) : M unit := fun s => (Ret tt, f s).

Declare Scope m_scope.
Delimit Scope m_scope with m.
Notation "x <- c ;; k" := (bind c (fun x => k))
  (at level 61, c at next level, right associativity) : m_scope.
Notation "c ;; k" := (bind c (fun _ => k))
  (at level 61, right associativity) : m_scope.
Local Open Scope m_scope.

(** ** The document store ([database], used through [db] and
       [create_document]) *)

Definition find_one {A} (p : A -> bool) (c : Coll A) : option (ObjectId * A) :=
  find (fun d => p (snd d)) c.

Definition find_by_id {A} (i : ObjectId) (c : Coll A) : option (ObjectId * A) :=
  find (fun d => Nat.eqb (fst d) i) c.

Fixpoint update_one {A} (i : ObjectId) (f : A -> A) (c : Coll A) : Coll A :=
  match c with
  | [] => []
  | (j, d) :: r => if Nat.eqb j i then (j, f d) :: r else (j, d) :: update_one i f r
  end.

Definition fresh_oid : M ObjectId :=
  s <- get ;;
  modify (fun s => mkWorld (users s) (wallets s) (deposits s) (withdrawals s) (orders s)
                           (pricesnapshots s) (S (next_oid s)) (PRICE_CACHE s) (PRICE_CACHE_TS s)) ;;
  ret (next_oid s).

Definition set_users (f : Coll User -> Coll User) : M unit :=
  modify (fun s => mkWorld (f (users s)) (wallets s) (deposits s) (withdrawals s) (orders s)
                           (pricesnapshots s) (next_oid s) (PRICE_CACHE s) (PRICE_CACHE_TS s)).
Definition set_wallets (f : Coll Wallet -> Coll Wallet) : M unit :=
  modify (fun s => mkWorld (users s) (f (wallets s)) (deposits s) (withdrawals s) (orders s)
                           (pricesnapshots s) (next_oid s) (PRICE_CACHE s) (PRICE_CACHE_TS s)).
Definition set_deposits (f : Coll Deposit -> Coll Deposit) : M unit :=
  modify (fun s => mkWorld (users s) (wallets s) (f (deposits s)) (withdrawals s) (orders s)
                           (pricesnapshots s) (next_oid s) (PRICE_CACHE s) (PRICE_CACHE_TS s)).
Definition set_withdrawals (f : Coll Withdrawal -> Coll Withdrawal) : M unit :=
  modify (fun s => mkWorld (users s) (wallets s) (deposits s) (f (withdrawals s)) (orders s)
                           (pricesnapshots s) (next_oid s) (PRICE_CACHE s) (PRICE_CACHE_TS s)).
Definition set_orders (f : Coll Order -> Coll Order) : M unit :=
  modify (fun s => mkWorld (users s) (wallets s) (deposits s) (withdrawals s) (f (orders s))
                           (pricesnapshots s) (next_oid s) (PRICE_CACHE s) (PRICE_CACHE_TS s)).
Definition set_pricesnapshots (f : Coll PriceSnapshot -> Coll PriceSnapshot) : M unit :=
  modify (fun s => mkWorld (users s) (wallets s) (deposits s) (withdrawals s) (orders s)
                           (f (pricesnapshots s)) (next_oid s) (PRICE_CACHE s) (PRICE_CACHE_TS s)).
Definition set_price_cache (p : Prices) (ts : option Z) : M unit :=
  modify (fun s => mkWorld (users s) (wallets s) (deposits s) (withdrawals s) (orders s)
                           (pricesnapshots s) (next_oid s) p ts).

(** [create_document(collection, model)]: insert under a fresh [_id] and
    return it. *)
Definition create_document_user (u : User) : M ObjectId :=
  i <- fresh_oid ;; set_users (fun c => (c ++ [(i, u)])%list) ;; ret i.
Definition create_document_wallet (w : Wallet) : M ObjectId :=
  i <- fresh_oid ;; set_wallets (fun c => (c ++ [(i, w)])%list) ;; ret i.
Definition create_document_deposit (d : Deposit) : M ObjectId :=
  i <- fresh_oid ;; set_deposits (fun c => (c ++ [(i, d)])%list) ;; ret i.
Definition create_document_withdrawal (w : Withdrawal) : M ObjectId :=
  i <- fresh_oid ;; set_withdrawals (fun c => (c ++ [(i, w)])%list) ;; ret i.
Definition create_document_order (o : Order) : M ObjectId :=
  i <- fresh_oid ;; set_orders (fun c => (c ++ [(i, o)])%list) ;; ret i.
(** The snapshot write is the one store call whose failure the code
    handles; [ok] tells whether the store accepts it. *)
Definition create_document_pricesnapshot (ok : bool) (p : PriceSnapshot) : M ObjectId :=
  if ok then i <- fresh_oid ;; set_pricesnapshots (fun c => (c ++ [(i, p)])%list) ;; ret i
  else raise RequestError.

(** Model constructors: pydantic validates the [Literal] and [gt=0]
    fields and raises otherwise. *)
Definition Wallet_new (uid : ObjectId) (asset : string) (bal avail : Q) : M Wallet :=
  if mem asset Wallet_assets then ret (mkWallet uid asset bal avail)
  else raise (ValidationError "Wallet").

Definition Deposit_new (uid : ObjectId) (asset : string) (amount : Q) (destination : string)
    (status : DepositStatus) : M Deposit :=
  if mem asset Deposit_assets then ret (mkDeposit uid asset amount paypal destination status)
  else raise (ValidationError "Deposit").

Definition Withdrawal_new (uid : ObjectId) (asset : string) (amount : Q) (destination : string)
    : M Withdrawal :=
  if mem asset Withdrawal_assets then ret (mkWithdrawal uid asset amount destination wd_created)
  else raise (ValidationError "Withdrawal").

Definition Order_new (uid : ObjectId) (side base : string) (amount price value : Q) : M Order :=
  if mem side Order_sides && mem base Order_base_assets && Qltb 0 amount
  then ret (mkOrder uid side base "USDT" amount (Some price) (Some value))
  else raise (ValidationError "Order").

(** ** Request payloads and responses ([src/main.py]) *)

Record AuthPayload := mkAuthPayload {
  ap_email : string;
  ap_password : string }.

Record AuthUser := mkAuthUser {
  id : ObjectId;
  au_email : string;
  au_is_admin : bool }.

Record DepositPayload := mkDepositPayload {
  dp_email : string;
  dp_password : string;
  dp_asset : string;
  dp_amount : Q }.

Record WithdrawalPayload := mkWithdrawalPayload {
  wp_email : string;
  wp_password : string;
  wp_asset : string;
  wp_amount : Q;
  wp_destination : string }.

(** [withdrawal_id] is the text of an ObjectId; [None] stands for a text
    that [ObjectId(...)] rejects. *)
Record AdminApprovePayload := mkAdminApprovePayload {
  aa_email : string;
  aa_password : string;
  withdrawal_id : option ObjectId;
  approve : bool }.

Record OrderPayload := mkOrderPayload {
  op_email : string;
  op_password : string;
  side : string;
  base_asset : string;
  op_amount : Q }.

Record DepositResponse := mkDepositResponse {
  deposit_id : ObjectId;
  destination : string;
  dr_status : string }.

Record WithdrawalResponse := mkWithdrawalResponse {
  wr_withdrawal_id : ObjectId;
  wr_status : string }.

Record OrderResponse := mkOrderResponse {
  order_id : ObjectId;
  price : Q }.

Definition PAYPAL_EMAIL : string := "elvisspear046@gmail.com".

(** ** Price feed *)

(** What [requests.get(...).json()] and the two [float(...)] conversions
    yield: [FeedError] when any of them raises, otherwise the [usd] entries
    of [bitcoin] and [ethereum], [None] for an absent one. *)
Inductive Feed :=
| FeedError
| FeedJson (bitcoin_usd ethereum_usd : option Q).

(** Inputs of one request: the clock in microseconds since the epoch, the
    answer of the price API, and whether the snapshot insert succeeds. *)
Record Env := mkEnv {
  now : Z;
  feed : Feed;
  snapshot_ok : bool }.

(** [timedelta.seconds] of a difference of [d] microseconds: the seconds
    field of the normalised (days, seconds, microseconds) triple. *)
Definition timedelta_seconds (d : Z) : Z := ((d mod 86400000000) / 1000000)%Z.

Definition truthy (p : Prices) : bool :=
  match p with [] => false | _ :: _ => true end.

Definition requests_get (e : Env) : M (option Q * option Q) :=
  match feed e with
  | FeedError => raise RequestError
  | FeedJson b t => ret (b, t)
  end.

Definition usd_or_zero (o : option Q) : Q :=
  match o with Some q => q | None => 0%Q end.

Definition default_prices : Prices := [("BTC", 0%Q); ("ETH", 0%Q); ("USDT", 1%Q)].

Definition cache_is_fresh (e : Env) (s : World) : bool :=
  truthy (PRICE_CACHE s) &&
  match PRICE_CACHE_TS s with
  | Some ts => (timedelta_seconds (now e - ts) <? 20)%Z
  | None => false
  end.

Definition fetch_prices (e : Env) : M Prices :=
  s <- get ;;
  if cache_is_fresh e s then ret (PRICE_CACHE s)
  else
    try_except
      (data <- requests_get e ;;
       let prices := [("BTC", usd_or_zero (fst data));
                      ("ETH", usd_or_zero (snd data));
                      ("USDT", 1%Q)] in
       set_price_cache prices (Some (now e)) ;;
       try_except
         (create_document_pricesnapshot (snapshot_ok e) (mkPriceSnapshot (now e) prices) ;;
          ret tt)
         (ret tt) ;;
       ret prices)
      (s' <- get ;;
       if truthy (PRICE_CACHE s') then ret (PRICE_CACHE s')
       else ret default_prices).

(** [prices.get(key)], and [prices[key]], which raises on a missing key. *)
Fixpoint lookup (p : Prices) (key : string) : option Q :=
  match p with
  | [] => None
  | (k, v) :: r => if String.eqb k key then Some v else lookup r key
  end.

Definition getitem (p : Prices) (key : string) : M Q :=
  match lookup p key with
  | Some v => ret v
  | None => raise (KeyError key)
  end.

(** ** Strings *)

Definition upper_ascii (c : ascii) : ascii :=
  let n := nat_of_ascii c in
  if (97 <=? n)%nat && (n <=? 122)%nat then ascii_of_nat (n - 32) else c.

Fixpoint upper (s : string) : string :=
  match s with
  | EmptyString => EmptyString
  | String c r => String (upper_ascii c) (upper r)
  end.

(** [s.split("@")[0]] *)
Fixpoint before_at (s : string) : string :=
  match s with
  | EmptyString => EmptyString
  | String c r => if Ascii.eqb c "@" then EmptyString else String c (before_at r)
  end.

Fixpoint for_each {A} (l : list A) (body : A -> M unit) : M unit :=
  match l with
  | [] => ret tt
  | a :: r => body a ;; for_each r body
  end.

(** ** Handlers *)

Section Handlers.

(** [hashlib.sha256(pw.encode()).hexdigest()] *)
Variable hash_password : string -> string.

Definition get_user_by_email (e : string) : M (option (ObjectId * User)) :=
  s <- get ;; ret (find_one (fun u => String.eqb (email u) e) (users s)).

Definition auth_required (e pw : string) : M AuthUser :=
  u <- get_user_by_email e ;;
  match u with
  | None => raise (HTTPException 401 "Invalid credentials")
  | Some (uid, u) =>
      if negb (String.eqb (password_hash u) (hash_password pw))
      then raise (HTTPException 401 "Invalid credentials")
      else ret (mkAuthUser uid (email u) (is_admin u))
  end.

Definition register (payload : AuthPayload) : M ObjectId :=
  u <- get_user_by_email (ap_email payload) ;;
  match u with
  | Some _ => raise (HTTPException 400 "Email already registered")
  | None =>
      let u := mkUser (before_at (ap_email payload)) (ap_email payload)
                      (hash_password (ap_password payload)) st_new false in
      user_id <- create_document_user u ;;
      for_each ["BTC"; "ETH"; "USDT"; "USD"] (fun asset =>
        try_except
          (w <- Wallet_new user_id asset 0%Q 0%Q ;;
           create_document_wallet w ;; ret tt)
          (ret tt)) ;;
      ret user_id
  end.

(** [db["wallet"].find_one({"user_id": uid, "asset": asset})] *)
Definition wallet_key (uid : ObjectId) (asset : string) (w : Wallet) : bool :=
  Nat.eqb (w_user_id w) uid && String.eqb (w_asset w) asset.

Definition wallet_of (s : World) (uid : ObjectId) (asset : string) : option (ObjectId * Wallet) :=
  find_one (wallet_key uid asset) (wallets s).

Definition wallet_find_one (uid : ObjectId) (asset : string) : M (option (ObjectId * Wallet)) :=
  s <- get ;; ret (wallet_of s uid asset).

(** The [$inc] updates of a wallet row: both fields, [balance] alone,
    [available] alone. *)
Definition inc (db da : Q) (w : Wallet) : Wallet :=
  mkWallet (w_user_id w) (w_asset w) (balance w + db)%Q (available w + da)%Q.
Definition inc_balance (db : Q) (w : Wallet) : Wallet :=
  mkWallet (w_user_id w) (w_asset w) (balance w + db)%Q (available w).
Definition inc_available (da : Q) (w : Wallet) : Wallet :=
  mkWallet (w_user_id w) (w_asset w) (balance w) (available w + da)%Q.

Definition wallet_inc (i : ObjectId) (db da : Q) : M unit :=
  set_wallets (update_one i (inc db da)).
Definition wallet_inc_balance (i : ObjectId) (db : Q) : M unit :=
  set_wallets (update_one i (inc_balance db)).
Definition wallet_inc_available (i : ObjectId) (da : Q) : M unit :=
  set_wallets (update_one i (inc_available da)).

Definition set_account_status (st : AccountStatus) (u : User) : User :=
  mkUser (name u) (email u) (password_hash u) st (is_admin u).
Definition set_deposit_status (st : DepositStatus) (d : Deposit) : Deposit :=
  mkDeposit (d_user_id d) (d_asset d) (d_amount d) (d_method d) (d_destination d) st.
Definition set_withdrawal_status (st : WithdrawalStatus) (w : Withdrawal) : Withdrawal :=
  mkWithdrawal (wd_user_id w) (wd_asset w) (wd_amount w) (wd_destination w) st.

Definition user_set_account_status (i : ObjectId) (st : AccountStatus) : M unit :=
  set_users (update_one i (set_account_status st)).

Definition deposit_set_status (i : ObjectId) (st : DepositStatus) : M unit :=
  set_deposits (update_one i (set_deposit_status st)).

Definition withdrawal_set_status (i : ObjectId) (st : WithdrawalStatus) : M unit :=
  set_withdrawals (update_one i (set_withdrawal_status st)).

(** The approval step of [create_deposit] (the lines under "mark as paid
    immediately and credit balance"): set the status, then credit the
    wallet if there is one. *)
Definition approve_deposit (dep_id uid : ObjectId) (asset : string) (amount : Q) : M unit :=
  deposit_set_status dep_id dep_approved ;;
  w <- wallet_find_one uid asset ;;
  match w with
  | Some (wid, _) => wallet_inc wid amount amount
  | None => ret tt
  end.

Definition create_deposit (payload : DepositPayload) : M DepositResponse :=
  user <- auth_required (dp_email payload) (dp_password payload) ;;
  dep <- Deposit_new (id user) (dp_asset payload) (dp_amount payload) PAYPAL_EMAIL dep_created ;;
  dep_id <- create_document_deposit dep ;;
  approve_deposit dep_id (id user) (dp_asset payload) (dp_amount payload) ;;
  user_set_account_status (id user) st_funded ;;
  ret (mkDepositResponse dep_id PAYPAL_EMAIL "approved").

Definition create_withdrawal (payload : WithdrawalPayload) : M WithdrawalResponse :=
  user <- auth_required (wp_email payload) (wp_password payload) ;;
  w <- wallet_find_one (id user) (wp_asset payload) ;;
  match w with
  | None => raise (HTTPException 400 "Insufficient funds")
  | Some (wid, w) =>
      if Qltb (available w) (wp_amount payload)
      then raise (HTTPException 400 "Insufficient funds")
      else
        wallet_inc_available wid (- wp_amount payload)%Q ;;
        wd <- Withdrawal_new (id user) (wp_asset payload) (wp_amount payload)
                             (wp_destination payload) ;;
        wd_id <- create_document_withdrawal wd ;;
        ret (mkWithdrawalResponse wd_id "created")
  end.

Definition approve_withdrawal (payload : AdminApprovePayload) : M bool :=
  admin <- auth_required (aa_email payload) (aa_password payload) ;;
  if negb (au_is_admin admin) then raise (HTTPException 403 "Admin only")
  else
    match withdrawal_id payload with
    | None => raise (HTTPException 400 "Invalid id")
    | Some oid =>
        s <- get ;;
        match find_by_id oid (withdrawals s) with
        | None => raise (HTTPException 404 "Not found")
        | Some (_, wd) =>
            (if approve payload then
               w <- wallet_find_one (wd_user_id wd) (wd_asset wd) ;;
               let amount := wd_amount wd in
               match w with
               | None => raise (HTTPException 400 "Insufficient total balance")
               | Some (wid, w) =>
                   if Qltb (balance w) amount
                   then raise (HTTPException 400 "Insufficient total balance")
                   else
                     wallet_inc_balance wid (- amount)%Q ;;
                     withdrawal_set_status oid wd_approved
               end
             else
               w <- wallet_find_one (wd_user_id wd) (wd_asset wd) ;;
               let amount := wd_amount wd in
               match w with
               | Some (wid, _) => wallet_inc_available wid amount
               | None => ret tt
               end ;;
               withdrawal_set_status oid wd_rejected) ;;
            ret true
        end
    end.

(** [w["_id"]] on the result of [find_one]: a [TypeError] on [None]. *)
Definition doc_id {A} (w : option (ObjectId * A)) : M ObjectId :=
  match w with
  | Some (i, _) => ret i
  | None => raise TypeError
  end.

Definition market_order (e : Env) (payload : OrderPayload) : M OrderResponse :=
  user <- auth_required (op_email payload) (op_password payload) ;;
  prices <- fetch_prices e ;;
  let base := upper (base_asset payload) in
  if negb (mem base ["BTC"; "ETH"]) then raise (HTTPException 400 "Unsupported market")
  else
    price_usd <- getitem prices base ;;
    (if String.eqb (side payload) "buy" then
       let cost := (op_amount payload * price_usd)%Q in
       usdt <- wallet_find_one (id user) "USDT" ;;
       match usdt with
       | None => raise (HTTPException 400 "Insufficient USDT")
       | Some (uid, usdt) =>
           if Qltb (available usdt) cost
           then raise (HTTPException 400 "Insufficient USDT")
           else
             wallet_inc uid (- cost)%Q (- cost)%Q ;;
             base_w <- wallet_find_one (id user) base ;;
             bid <- doc_id base_w ;;
             wallet_inc bid (op_amount payload) (op_amount payload)
       end
     else if String.eqb (side payload) "sell" then
       base_w <- wallet_find_one (id user) base ;;
       match base_w with
       | None => raise (HTTPException 400 "Insufficient asset")
       | Some (bid, base_w) =>
           if Qltb (available base_w) (op_amount payload)
           then raise (HTTPException 400 "Insufficient asset")
           else
             let proceeds := (op_amount payload * price_usd)%Q in
             wallet_inc bid (- op_amount payload)%Q (- op_amount payload)%Q ;;
             usdt <- wallet_find_one (id user) "USDT" ;;
             uid <- doc_id usdt ;;
             wallet_inc uid proceeds proceeds
       end
     else raise (HTTPException 400 "Invalid side")) ;;
    order <- Order_new (id user) (side payload) base (op_amount payload) price_usd
                       (op_amount payload * price_usd)%Q ;;
    order_id <- create_document_order order ;;
    ret (mkOrderResponse order_id price_usd).

Definition prices (e : Env) : M Prices := fetch_prices e.

Definition bootstrap_admin (e pw : string) : M ObjectId :=
  u <- get_user_by_email e ;;
  match u with
  | Some _ => raise (HTTPException 400 "Exists")
  | None =>
      let u := mkUser "admin" e (hash_password pw) st_kyc_verified true in
      user_id <- create_document_user u ;;
      for_each ["BTC"; "ETH"; "USDT"; "USD"] (fun asset =>
        w <- Wallet_new user_id asset 0%Q 0%Q ;;
        create_document_wallet w ;; ret tt) ;;
      ret user_id
  end.

End Handlers.

(** ** Runs, store predicates and the ledger operations *)

Definition exec {A} (c : M A) (s : World) : World := snd (c s).



(** MongoDB keeps [_id] unique within a collection. *)
Fixpoint unique_ids {A} (c : Coll A) : bool :=
  match c with
  | [] => true
  | (i, _) :: r => negb (existsb (fun d => Nat.eqb (fst d) i) r) && unique_ids r
  end.

(** Wallet rows only enter the store through the [Wallet] model. *)
Definition wallets_valid (s : World) : bool :=
  forallb (fun d => mem (w_asset (snd d)) Wallet_assets) (wallets s).

Definition store_ok (s : World) : bool :=
  unique_ids (wallets s) && wallets_valid s.

Definition prices_nonneg (p : Prices) : bool :=
  forallb (fun kv => Qle_bool 0 (snd kv)) p.

Definition feed_nonneg (f : Feed) : bool :=
  match f with
  | FeedError => true
  | FeedJson b t => Qle_bool 0 (usd_or_zero b) && Qle_bool 0 (usd_or_zero t)
  end.

(** A populated cache holds the three keys [fetch_prices] writes. *)
Definition cache_wf (s : World) : bool :=
  match PRICE_CACHE s with
  | [] => true
  | p => forallb (fun k => match lookup p k with Some _ => true | None => false end)
                 ["BTC"; "ETH"; "USDT"]
  end.

(** The map a successful refresh builds, and the answer after a failed one. *)
Definition refreshed (b t : option Q) : Prices :=
  [("BTC", usd_or_zero b); ("ETH", usd_or_zero t); ("USDT", 1%Q)].

Definition cached_or_default (s : World) : Prices :=
  if truthy (PRICE_CACHE s) then PRICE_CACHE s else default_prices.

Definition empty_world : World := mkWorld [] [] [] [] [] [] 0%nat [] None.





(** ** Example data *)

Definition sha (pw : string) : string := "sha256:" ++ pw.

Definition alice : AuthPayload := mkAuthPayload "alice@laxo.io" "pw".

(** The store after [register] on an empty store: user 0 with wallets
    1 (BTC), 2 (ETH), 3 (USDT). *)
Definition world_alice : World := exec (register sha alice) empty_world.

(** Alice with 100 USDT. *)
Definition world_funded : World :=
  exec (create_deposit sha (mkDepositPayload "alice@laxo.io" "pw" "USDT" 100)) world_alice.

(** The price API down, up with BTC at 50000, and up 86405 seconds later
    with BTC at 60000. *)
Definition env_down : Env := mkEnv 1000000%Z FeedError true.
Definition env_up : Env := mkEnv 1000000%Z (FeedJson (Some 50000%Q) (Some 3000%Q)) true.
Definition env_next_day : Env :=
  mkEnv (1000000 + 86405 * 1000000)%Z (FeedJson (Some 60000%Q) (Some 3500%Q)) true.

(** The cache filled by a first successful fetch. *)
Definition world_cached : World := exec (fetch_prices env_up) world_alice.

(** An administrator (user 5), then a withdrawal of 30 USDT by Alice
    (withdrawal 9), then its approval. *)
Definition root : AuthPayload := mkAuthPayload "root@laxo.io" "pw".

Definition world_admin : World :=
  exec (bootstrap_admin sha (ap_email root) (ap_password root)) world_funded.

Definition world_reserved : World :=
  exec (create_withdrawal sha (mkWithdrawalPayload "alice@laxo.io" "pw" "USDT" 30 "bank"))
       world_admin.

Definition decide_9 (approve : bool) : AdminApprovePayload :=
  mkAdminApprovePayload "root@laxo.io" "pw" (Some 9%nat) approve.

Definition world_settled : World :=
  exec (approve_withdrawal sha (decide_9 true)) world_reserved.


Definition env_soon : Env := mkEnv (1000000 + 5000000)%Z FeedError true.

Definition env_later : Env :=
  mkEnv (1000000 + 30000000)%Z (FeedJson (Some 60000%Q) (Some 3500%Q)) true.

(** ** The remaining routes and the request interface *)

Section Routes.

Variable hash_password : string -> string.

Definition login (payload : AuthPayload) : M AuthUser :=
  auth_required hash_password (ap_email payload) (ap_password payload).

(** [list(db["wallet"].find({"user_id": user.id}))], each row with its id. *)
Definition list_wallets (e pw : string) : M (list (ObjectId * Wallet)) :=
  user <- auth_required hash_password e pw ;;
  s <- get ;;
  ret (filter (fun d => Nat.eqb (w_user_id (snd d)) (id user)) (wallets s)).

End Routes.

(** One constructor per route that reads or writes the store. *)
Inductive Request :=
| POST_auth_register (p : AuthPayload)
| POST_auth_login (p : AuthPayload)
| GET_wallets (e pw : string)
| POST_deposits_create (p : DepositPayload)
| POST_withdrawals_create (p : WithdrawalPayload)
| POST_admin_withdrawals_approve (p : AdminApprovePayload)
| POST_trade_market (e : Env) (p : OrderPayload)
| GET_prices (e : Env)
| POST_admin_bootstrap (e pw : string).

(** The store after a request, whatever the answer was. *)
Definition handle (hash_password : string -> string) (r : Request) (s : World) : World :=
  match r with
  | POST_auth_register p => exec (register hash_password p) s
  | POST_auth_login p => exec (login hash_password p) s
  | GET_wallets e pw => exec (list_wallets hash_password e pw) s
  | POST_deposits_create p => exec (create_deposit hash_password p) s
  | POST_withdrawals_create p => exec (create_withdrawal hash_password p) s
  | POST_admin_withdrawals_approve p => exec (approve_withdrawal hash_password p) s
  | POST_trade_market e p => exec (market_order hash_password e p) s
  | GET_prices e => exec (prices e) s
  | POST_admin_bootstrap e pw => exec (bootstrap_admin hash_password e pw) s
  end.

Definition serve (hash_password : string -> string) (rs : list Request) (s : World) : World :=
  fold_left (fun s r => handle hash_password r s) rs s.

(** ** Store invariants *)

Definition ids_below {A} (n : ObjectId) (c : Coll A) : bool :=
  forallb (fun d => Nat.ltb (fst d) n) c.

Definition coll_wf {A} (n : ObjectId) (c : Coll A) : bool :=
  unique_ids c && ids_below n c.

(** Every collection has unique ids, all of them handed out already. *)
Definition docs_wf (s : World) : bool :=
  coll_wf (next_oid s) (users s) && coll_wf (next_oid s) (wallets s) &&
  coll_wf (next_oid s) (deposits s) && coll_wf (next_oid s) (withdrawals s) &&
  coll_wf (next_oid s) (orders s) && coll_wf (next_oid s) (pricesnapshots s).

Fixpoint distinct (l : list string) : bool :=
  match l with
  | [] => true
  | x :: r => negb (mem x r) && distinct r
  end.

Definition emails (s : World) : list string := map (fun u => email (snd u)) (users s).

Definition emails_unique (s : World) : bool := distinct (emails s).

(** Every wallet row belongs to a stored user. *)
Definition wallets_owned (s : World) : bool :=
  forallb (fun d => existsb (fun u => Nat.eqb (fst u) (w_user_id (snd d))) (users s))
          (wallets s).

(** Every stored user has a wallet row for each asset of the [Wallet]
    schema. *)
Definition wallets_complete (s : World) : bool :=
  forallb (fun u =>
             forallb (fun a => existsb (fun d => wallet_key (fst u) a (snd d)) (wallets s))
                     Wallet_assets)
          (users s).

Definition accounts_wf (s : World) : bool :=
  wallets_valid s && emails_unique s && wallets_owned s && wallets_complete s.

Definition store_wf (s : World) : bool := docs_wf s && accounts_wf s.

(** What identifies a wallet row and a user: the fields no [$inc] or
    [$set] of the code writes. *)
Definition wallet_row_key (d : ObjectId * Wallet) : ObjectId * ObjectId * string :=
  (fst d, w_user_id (snd d), w_asset (snd d)).

Definition user_row_key (d : ObjectId * User) : ObjectId * string * string * bool :=
  (fst d, email (snd d), password_hash (snd d), is_admin (snd d)).

(** The store [register] and [bootstrap_admin] leave behind for a new
    account [u]: the user row and the three wallet rows the schema lets
    through, under the next four ids. *)
Definition with_account (u : User) (s : World) : World :=
  let n := next_oid s in
  mkWorld (users s ++ [(n, u)])%list
          (wallets s ++ [(S n, mkWallet n "BTC" 0 0);
                         (S (S n), mkWallet n "ETH" 0 0);
                         (S (S (S n)), mkWallet n "USDT" 0 0)])%list
          (deposits s) (withdrawals s) (orders s) (pricesnapshots s)
          (S (S (S (S n)))) (PRICE_CACHE s) (PRICE_CACHE_TS s).

(** A computation keeps [P], whether it returns or raises. *)
Definition preserves {A} (P : World -> Prop) (c : M A) : Prop :=
  forall s, P s -> P (snd (c s)).

(** What the ledger handlers can do to a store [s0]: no wallet row and no
    user is added, removed or re-keyed, orders are only appended, ids are
    only handed out. *)
Definition evolves (s0 s : World) : Prop :=
  map wallet_row_key (wallets s) = map wallet_row_key (wallets s0) /\
  map user_row_key (users s) = map user_row_key (users s0) /\
  (exists l, orders s = (orders s0 ++ l)%list) /\
  (next_oid s0 <= next_oid s)%nat.

(** * Properties *)

Local Open Scope list_scope.

(** ** Numbers and collections *)

Lemma Qltb_true (a b : Q) : Qltb a b = true <-> (a < b)%Q.
Proof.
  unfold Qltb. rewrite negb_true_iff. split; intro H.
  - apply Qnot_le_lt. intro L. apply Qle_bool_iff in L. congruence.
  - destruct (Qle_bool b a) eqn:E; [|reflexivity].
    apply Qle_bool_iff in E. exfalso. exact (Qlt_not_le _ _ H E).
Qed.

Lemma Qltb_false (a b : Q) : Qltb a b = false <-> (b <= a)%Q.
Proof.
  unfold Qltb. rewrite negb_false_iff. apply Qle_bool_iff.
Qed.

Lemma find_one_some {A} (p : A -> bool) (c : Coll A) i d :
  find_one p c = Some (i, d) -> In (i, d) c /\ p d = true.
Proof.
  unfold find_one. intro H. apply find_some in H. exact H.
Qed.

Lemma unique_ids_head {A} (c : Coll A) i d j d' :
  unique_ids ((i, d) :: c) = true -> In (j, d') c -> j <> i.
Proof.
  simpl. intros H Hin E. subst j. apply andb_prop in H. destruct H as [H _].
  apply negb_true_iff in H.
  rewrite <- not_true_iff_false in H. apply H.
  apply existsb_exists. exists (i, d'). split; [exact Hin | apply Nat.eqb_refl].
Qed.

(** With unique ids, the document [find_one] returns is the one its [_id]
    selects. *)
Lemma find_one_by_id {A} (p : A -> bool) (c : Coll A) i d :
  unique_ids c = true -> find_one p c = Some (i, d) -> find_by_id i c = Some (i, d).
Proof.
  induction c as [|[j x] r IH]; simpl; intros U H; [discriminate|].
  unfold find_one in H. simpl in H.
  destruct (p x) eqn:Px.
  - inversion H; subst. now rewrite Nat.eqb_refl.
  - fold (find_one p r) in H.
    destruct (Nat.eqb j i) eqn:E.
    + apply Nat.eqb_eq in E. subst j.
      apply find_one_some in H. destruct H as [Hin _].
      exfalso. exact (unique_ids_head r i x i d U Hin eq_refl).
    + apply IH; [|exact H]. simpl in U. apply andb_prop in U. tauto.
Qed.

Lemma find_by_id_update_same {A} (f : A -> A) (c : Coll A) i d :
  find_by_id i c = Some (i, d) -> find_by_id i (update_one i f c) = Some (i, f d).
Proof.
  induction c as [|[j x] r IH]; simpl; [discriminate|].
  destruct (Nat.eqb j i) eqn:E; simpl; rewrite E.
  - intro H. inversion H; subst. reflexivity.
  - exact IH.
Qed.



(** ** Updates and the wallet invariant *)

Lemma existsb_id_update_one {A} (f : A -> A) (c : Coll A) i j :
  existsb (fun d => Nat.eqb (fst d) j) (update_one i f c)
  = existsb (fun d => Nat.eqb (fst d) j) c.
Proof.
  induction c as [|[k x] r IH]; [reflexivity|]. simpl.
  destruct (Nat.eqb k i); simpl; [reflexivity | now rewrite IH].
Qed.

Lemma unique_ids_update_one {A} (f : A -> A) (c : Coll A) i :
  unique_ids (update_one i f c) = unique_ids c.
Proof.
  induction c as [|[k x] r IH]; [reflexivity|]. simpl.
  destruct (Nat.eqb k i); simpl; [reflexivity|].
  now rewrite existsb_id_update_one, IH.
Qed.

Lemma find_one_update {A} (p : A -> bool) (f : A -> A) (c : Coll A) i :
  (forall x, p (f x) = p x) ->
  unique_ids c = true ->
  find_one p (update_one i f c)
  = match find_one p c with
    | Some (j, d) => Some (j, if Nat.eqb j i then f d else d)
    | None => None
    end.
Proof.
  intros Pf. induction c as [|[j x] r IH]; intro U; [reflexivity|].
  simpl. destruct (Nat.eqb j i) eqn:E.
  - unfold find_one. simpl. rewrite Pf.
    destruct (p x) eqn:Px; [now rewrite E|].
    fold (find_one p r).
    destruct (find_one p r) as [[k d]|] eqn:Fr; [|reflexivity].
    apply find_one_some in Fr. destruct Fr as [Hin _].
    apply Nat.eqb_eq in E. subst j.
    pose proof (unique_ids_head r i x k d U Hin) as Hk.
    apply Nat.eqb_neq in Hk. now rewrite Hk.
  - unfold find_one. simpl.
    destruct (p x) eqn:Px; [now rewrite E|].
    apply IH. simpl in U. apply andb_prop in U. tauto.
Qed.



Section Properties.

Variable hash_password : string -> string.

Ltac run :=
  cbv [bind ret raise get modify try_except fresh_oid exec
       set_users set_wallets set_deposits set_withdrawals set_orders set_pricesnapshots
       set_price_cache
       create_document_user create_document_wallet create_document_deposit
       create_document_withdrawal create_document_order
       wallet_find_one wallet_inc wallet_inc_balance wallet_inc_available
       user_set_account_status deposit_set_status withdrawal_set_status
       approve_deposit doc_id negb];
  cbn [fst snd users wallets deposits withdrawals orders pricesnapshots next_oid
       PRICE_CACHE PRICE_CACHE_TS].

Lemma auth_required_state (e pw : string) (s : World) :
  snd (auth_required hash_password e pw s) = s.
Proof.
  unfold auth_required, get_user_by_email. run.
  destruct (find_one _ (users s)) as [[uid u]|]; [|reflexivity].
  destruct (String.eqb _ _); reflexivity.
Qed.


(** Looking a wallet up after one [$inc]: the same row, updated if it is
    the one the update hit. *)
Lemma wallet_frame (c : Coll Wallet) uid asset i (f : Wallet -> Wallet) :
  (forall x, w_user_id (f x) = w_user_id x /\ w_asset (f x) = w_asset x) ->
  unique_ids c = true ->
  find_one (wallet_key uid asset) (update_one i f c)
  = match find_one (wallet_key uid asset) c with
    | Some (j, d) => Some (j, if Nat.eqb j i then f d else d)
    | None => None
    end.
Proof.
  intros Hf U. apply find_one_update; [|exact U].
  intro x. unfold wallet_key. destruct (Hf x) as [-> ->]. reflexivity.
Qed.

Lemma wallet_of_update (s : World) uid asset wid w (f : Wallet -> Wallet) ws' :
  (forall x, w_user_id (f x) = w_user_id x /\ w_asset (f x) = w_asset x) ->
  unique_ids (wallets s) = true ->
  wallet_of s uid asset = Some (wid, w) ->
  ws' = update_one wid f (wallets s) ->
  find_one (wallet_key uid asset) ws' = Some (wid, f w).
Proof.
  intros Hf U H ->. unfold wallet_of in H.
  rewrite (wallet_frame _ _ _ _ _ Hf U), H. now rewrite Nat.eqb_refl.
Qed.

Lemma inc_keeps_key db da x :
  w_user_id (inc db da x) = w_user_id x /\ w_asset (inc db da x) = w_asset x.
Proof. split; reflexivity. Qed.

Lemma inc_balance_keeps_key db x :
  w_user_id (inc_balance db x) = w_user_id x /\ w_asset (inc_balance db x) = w_asset x.
Proof. split; reflexivity. Qed.

Lemma inc_available_keeps_key da x :
  w_user_id (inc_available da x) = w_user_id x /\ w_asset (inc_available da x) = w_asset x.
Proof. split; reflexivity. Qed.



Lemma Wallet_assets_withdrawable (a : string) :
  mem a Wallet_assets = true -> mem a Withdrawal_assets = true.
Proof.
  unfold mem, Wallet_assets, Withdrawal_assets. cbn [existsb].
  destruct (String.eqb a "BTC"), (String.eqb a "ETH"), (String.eqb a "USDT");
    cbn; congruence.
Qed.

Lemma wallet_of_key (s : World) uid asset wid w :
  wallet_of s uid asset = Some (wid, w) ->
  In (wid, w) (wallets s) /\ w_user_id w = uid /\ w_asset w = asset.
Proof.
  unfold wallet_of. intro H. apply find_one_some in H. destruct H as [Hin H].
  unfold wallet_key in H. apply andb_prop in H. destruct H as [H1 H2].
  apply Nat.eqb_eq in H1. apply String.eqb_eq in H2. auto.
Qed.

Lemma wallet_of_valid (s : World) uid asset wid w :
  wallets_valid s = true ->
  wallet_of s uid asset = Some (wid, w) ->
  mem asset Wallet_assets = true.
Proof.
  intros V H. apply wallet_of_key in H. destruct H as (Hin & _ & <-).
  unfold wallets_valid in V. rewrite forallb_forall in V. exact (V _ Hin).
Qed.


(** C4 (as amended). [approve_withdrawal] never looks at the status of the
    withdrawal: for a withdrawal in any status (approved and rejected
    included) whose wallet exists, an approving call with
    [balance >= amount] succeeds, takes the amount off [balance] and writes
    status approved; an approving call with [balance < amount] fails with
    "Insufficient total balance" and changes nothing; a rejecting call
    succeeds, adds the amount to [available] and writes status rejected. *)
Theorem withdrawal_decide_ignores_status (s : World) (p : AdminApprovePayload)
    (admin : AuthUser) i wd wid w :
  auth_required hash_password (aa_email p) (aa_password p) s = (Ret admin, s) ->
  au_is_admin admin = true ->
  withdrawal_id p = Some i ->
  find_by_id i (withdrawals s) = Some (i, wd) ->
  unique_ids (wallets s) = true ->
  wallet_of s (wd_user_id wd) (wd_asset wd) = Some (wid, w) ->
  (approve p = true -> (wd_amount wd <= balance w)%Q ->
     exists s',
       approve_withdrawal hash_password p s = (Ret true, s') /\
       wallet_of s' (wd_user_id wd) (wd_asset wd)
         = Some (wid, mkWallet (w_user_id w) (w_asset w)
                               (balance w - wd_amount wd) (available w)) /\
       find_by_id i (withdrawals s') = Some (i, set_withdrawal_status wd_approved wd))
  /\
  (approve p = true -> (balance w < wd_amount wd)%Q ->
     approve_withdrawal hash_password p s
       = (Raise (HTTPException 400 "Insufficient total balance"), s))
  /\
  (approve p = false ->
     exists s',
       approve_withdrawal hash_password p s = (Ret true, s') /\
       wallet_of s' (wd_user_id wd) (wd_asset wd)
         = Some (wid, mkWallet (w_user_id w) (w_asset w)
                               (balance w) (available w + wd_amount wd)) /\
       find_by_id i (withdrawals s') = Some (i, set_withdrawal_status wd_rejected wd)).
Proof.
  intros Hauth Hadm Hid Hwd U Hw.
  repeat split.
  - intros Ha Hcmp. apply Qltb_false in Hcmp.
    unfold approve_withdrawal. unfold bind at 1. rewrite Hauth, Hadm, Hid. run.
    rewrite Hwd, Ha. rewrite Hw, Hcmp.
    eexists. split; [reflexivity|]. split.
    + unfold wallet_of at 1. cbn [wallets].
      apply (wallet_of_update s _ _ wid w (inc_balance (- wd_amount wd)));
        auto using inc_balance_keeps_key.
    + cbn [withdrawals]. now apply find_by_id_update_same.
  - intros Ha Hcmp. apply Qltb_true in Hcmp.
    unfold approve_withdrawal. unfold bind at 1. rewrite Hauth, Hadm, Hid. run.
    rewrite Hwd, Ha. rewrite Hw, Hcmp. reflexivity.
  - intros Ha.
    unfold approve_withdrawal. unfold bind at 1. rewrite Hauth, Hadm, Hid. run.
    rewrite Hwd, Ha. rewrite Hw.
    eexists. split; [reflexivity|]. split.
    + unfold wallet_of at 1. cbn [wallets].
      apply (wallet_of_update s _ _ wid w (inc_available (wd_amount wd)));
        auto using inc_available_keeps_key.
    + cbn [withdrawals]. now apply find_by_id_update_same.
Qed.


(** ** The price feed *)

Lemma fetch_prices_fresh (e : Env) (s : World) :
  cache_is_fresh e s = true -> fetch_prices e s = (Ret (PRICE_CACHE s), s).
Proof. intro F. unfold fetch_prices. run. now rewrite F. Qed.

Lemma fetch_prices_feed_error (e : Env) (s : World) :
  cache_is_fresh e s = false -> feed e = FeedError ->
  fetch_prices e s = (Ret (cached_or_default s), s).
Proof.
  intros F E. unfold fetch_prices, requests_get, cached_or_default. run.
  rewrite F, E. run. destruct (truthy (PRICE_CACHE s)); reflexivity.
Qed.

Lemma fetch_prices_refresh (e : Env) (s : World) b t :
  cache_is_fresh e s = false -> feed e = FeedJson b t ->
  fetch_prices e s
  = (Ret (refreshed b t),
     if snapshot_ok e
     then mkWorld (users s) (wallets s) (deposits s) (withdrawals s) (orders s)
                  (pricesnapshots s ++ [(next_oid s, mkPriceSnapshot (now e) (refreshed b t))])
                  (S (next_oid s)) (refreshed b t) (Some (now e))
     else mkWorld (users s) (wallets s) (deposits s) (withdrawals s) (orders s)
                  (pricesnapshots s) (next_oid s) (refreshed b t) (Some (now e))).
Proof.
  intros F E. unfold fetch_prices, requests_get, create_document_pricesnapshot. run.
  rewrite F, E. run. destruct (snapshot_ok e); reflexivity.
Qed.

Lemma truthy_nonempty (p : Prices) : p <> [] -> truthy p = true.
Proof. destruct p; [congruence | reflexivity]. Qed.

Lemma cache_fresh_truthy (e : Env) (s : World) :
  cache_is_fresh e s = true -> truthy (PRICE_CACHE s) = true.
Proof. unfold cache_is_fresh. intro H. apply andb_prop in H. tauto. Qed.

Lemma cache_wf_lookup (s : World) (a : string) :
  cache_wf s = true -> truthy (PRICE_CACHE s) = true ->
  mem a ["BTC"; "ETH"; "USDT"] = true ->
  exists q, lookup (PRICE_CACHE s) a = Some q.
Proof.
  unfold cache_wf. destruct (PRICE_CACHE s) as [|kv r] eqn:E; [discriminate|].
  intros W _ Ha. rewrite forallb_forall in W.
  unfold mem in Ha. apply existsb_exists in Ha. destruct Ha as (k & Hin & Hk).
  apply String.eqb_eq in Hk. subst k. specialize (W _ Hin).
  destruct (lookup (kv :: r) a) as [q|]; [now exists q | discriminate].
Qed.

Lemma lookup_three (b t u : Q) (a : string) :
  mem a ["BTC"; "ETH"; "USDT"] = true ->
  exists q, lookup [("BTC", b); ("ETH", t); ("USDT", u)] a = Some q.
Proof.
  unfold mem. cbn [existsb lookup]. rewrite !(String.eqb_sym a).
  destruct (String.eqb "BTC" a); [eauto|].
  destruct (String.eqb "ETH" a); [eauto|].
  destruct (String.eqb "USDT" a); [eauto|discriminate].
Qed.

Lemma getitem_of_lookup (ps : Prices) (a : string) (s : World) :
  (exists q, lookup ps a = Some q) -> exists q, getitem ps a s = (Ret q, s).
Proof. intros [q Hq]. exists q. unfold getitem. now rewrite Hq. Qed.

(** C8. [fetch_prices] always returns a price map and never raises, and the
    map has a quote for each of BTC, ETH and USDT.  When the refresh fails
    it returns the cached map if there is one and otherwise the default, in
    which BTC and ETH are quoted at zero (USDT, the unit of account, at 1);
    nothing is written in either case.  Whether the snapshot insert succeeds
    has no influence on the answer.  The cache stays well formed. *)
Theorem fetch_prices_never_fails (e : Env) (s : World) :
  cache_wf s = true ->
  exists ps s',
    fetch_prices e s = (Ret ps, s') /\
    (forall a, mem a ["BTC"; "ETH"; "USDT"] = true ->
       exists q, getitem ps a s' = (Ret q, s')) /\
    (cache_is_fresh e s = false -> feed e = FeedError -> PRICE_CACHE s <> [] ->
       ps = PRICE_CACHE s /\ s' = s) /\
    (feed e = FeedError -> PRICE_CACHE s = [] ->
       ps = default_prices /\ s' = s /\
       lookup ps "BTC" = Some 0%Q /\ lookup ps "ETH" = Some 0%Q) /\
    (forall ok, fst (fetch_prices (mkEnv (now e) (feed e) ok) s) = Ret ps) /\
    cache_wf s' = true.
Proof.
  intro W.
  destruct (cache_is_fresh e s) eqn:F; [|destruct (feed e) as [|b t] eqn:E].
  - (* served from the cache *)
    exists (PRICE_CACHE s), s.
    pose proof (cache_fresh_truthy e s F) as T.
    split; [now apply fetch_prices_fresh|].
    split; [intros a Ha; apply getitem_of_lookup; now apply cache_wf_lookup|].
    split; [discriminate|].
    split; [intros _ N; rewrite N in T; discriminate|].
    split; [|exact W].
    intro ok. now rewrite fetch_prices_fresh.
  - (* the refresh fails *)
    exists (cached_or_default s), s.
    split; [now apply fetch_prices_feed_error|].
    split; [|split; [|split; [|split; [|exact W]]]].
    + intros a Ha. apply getitem_of_lookup. unfold cached_or_default.
      destruct (truthy (PRICE_CACHE s)) eqn:T.
      * now apply cache_wf_lookup.
      * now apply lookup_three.
    + intros _ _ N. unfold cached_or_default. now rewrite (truthy_nonempty _ N).
    + intros _ N. unfold cached_or_default. rewrite N. cbn. auto.
    + intro ok. now rewrite fetch_prices_feed_error.
  - (* the refresh succeeds *)
    eexists. eexists.
    split; [exact (fetch_prices_refresh e s b t F E)|].
    split; [|split; [|split; [|split]]].
    + intros a Ha. apply getitem_of_lookup. now apply lookup_three.
    + discriminate.
    + discriminate.
    + intro ok. now rewrite (fetch_prices_refresh _ _ b t).
    + destruct (snapshot_ok e); reflexivity.
Qed.

(** C9, evaluated. The cache was filled at second 1 with BTC at 50000.  A
    call 86405 seconds later (one day and five seconds, far beyond the 20
    second window) while the API quotes 60000 is answered from the cache:
    [timedelta.seconds] is 5, so the cache counts as fresh, no refresh is
    attempted and the state is untouched. *)
Theorem fetch_prices_serves_day_old_cache :
  PRICE_CACHE_TS world_cached = Some 1000000%Z /\
  (now env_next_day - 1000000 > 20 * 1000000)%Z /\
  timedelta_seconds (now env_next_day - 1000000) = 5%Z /\
  feed env_next_day = FeedJson (Some 60000%Q) (Some 3500%Q) /\
  fetch_prices env_next_day world_cached
    = (Ret [("BTC", 50000%Q); ("ETH", 3000%Q); ("USDT", 1%Q)], world_cached).
Proof. repeat split; vm_compute; reflexivity. Qed.

(** X15. The freshness test reads only the seconds field of the age: a
    non-empty cache whose age is any number of whole days plus less than 20
    seconds is served as fresh, without a request and without a write. *)
Lemma stale_cache_served (e : Env) (s : World) (ts days r : Z) :
  PRICE_CACHE s <> [] ->
  PRICE_CACHE_TS s = Some ts ->
  (now e - ts = days * 86400000000 + r)%Z ->
  (0 <= r < 20000000)%Z ->
  fetch_prices e s = (Ret (PRICE_CACHE s), s).
Proof.
  intros N T D R. apply fetch_prices_fresh. unfold cache_is_fresh.
  rewrite (truthy_nonempty _ N), T. cbn [andb].
  apply Z.ltb_lt. unfold timedelta_seconds. rewrite D.
  rewrite Z.add_comm, Z.mod_add by lia.
  rewrite Z.mod_small by lia.
  apply Z.div_lt_upper_bound; lia.
Qed.

Lemma fetch_prices_ledger (e : Env) (s : World) :
  exists ps s1,
    fetch_prices e s = (Ret ps, s1) /\
    users s1 = users s /\ wallets s1 = wallets s /\ orders s1 = orders s /\
    (cache_is_fresh e s = false -> feed e = FeedError -> s1 = s) /\
    (prices_nonneg (PRICE_CACHE s) = true -> feed_nonneg (feed e) = true ->
     prices_nonneg ps = true).
Proof.
  destruct (cache_is_fresh e s) eqn:F; [|destruct (feed e) as [|b t] eqn:E].
  - exists (PRICE_CACHE s), s. rewrite fetch_prices_fresh by exact F.
    repeat split; auto.
  - exists (cached_or_default s), s. rewrite fetch_prices_feed_error by assumption.
    repeat split; auto. intros Hc _. unfold cached_or_default.
    destruct (truthy (PRICE_CACHE s)); [exact Hc | reflexivity].
  - eexists. eexists. split; [exact (fetch_prices_refresh e s b t F E)|].
    destruct (snapshot_ok e); cbn [users wallets orders];
      (repeat split; auto; try discriminate;
       intros _ Hf; unfold refreshed, prices_nonneg; cbn [forallb snd];
       cbn [feed_nonneg] in Hf; apply andb_prop in Hf; destruct Hf as [Hb Ht];
       rewrite Hb, Ht; reflexivity).
Qed.


Lemma distinct_wallets (s : World) uid a1 a2 i1 i2 w1 w2 :
  unique_ids (wallets s) = true ->
  wallet_of s uid a1 = Some (i1, w1) ->
  wallet_of s uid a2 = Some (i2, w2) ->
  a1 <> a2 -> i1 <> i2.
Proof.
  intros U H1 H2 N E. subst i2.
  pose proof (wallet_of_key _ _ _ _ _ H1) as (_ & _ & A1).
  pose proof (wallet_of_key _ _ _ _ _ H2) as (_ & _ & A2).
  unfold wallet_of in H1, H2.
  apply (find_one_by_id _ _ _ _ U) in H1. apply (find_one_by_id _ _ _ _ U) in H2.
  congruence.
Qed.

Lemma market_not_USDT (base : string) : mem base ["BTC"; "ETH"] = true -> base <> "USDT".
Proof. intros H ->. vm_compute in H. discriminate. Qed.

(** C2 (as amended). [market_order] has no check on the price.  When the
    oracle quotes the base asset at zero, a trade of a positive amount by an
    account that holds both wallets settles: a buy (USDT [available] not
    negative) credits the base wallet with the amount and moves the USDT
    wallet by [amount * 0]; a sell ([available] of the base asset at least
    the amount) debits the base wallet by the amount and credits the USDT
    wallet with [amount * 0]; either way an [Order] at that price is stored
    and returned. *)
Theorem trade_settles_at_price_zero (e : Env) (s s1 : World) (p : OrderPayload)
    (user : AuthUser) (ps : Prices) (q : Q) (base : string) uw usdt bid bw :
  auth_required hash_password (op_email p) (op_password p) s = (Ret user, s) ->
  fetch_prices e s = (Ret ps, s1) ->
  upper (base_asset p) = base ->
  mem base ["BTC"; "ETH"] = true ->
  lookup ps base = Some q ->
  (q == 0)%Q ->
  (0 < op_amount p)%Q ->
  unique_ids (wallets s) = true ->
  wallet_of s (id user) "USDT" = Some (uw, usdt) ->
  wallet_of s (id user) base = Some (bid, bw) ->
  (side p = "buy" -> (0 <= available usdt)%Q ->
     exists r s',
       market_order hash_password e p s = (Ret r, s') /\
       price r = q /\
       orders s' = orders s ++
         [(order_id r, mkOrder (id user) "buy" base "USDT" (op_amount p)
                               (Some q) (Some (op_amount p * q)%Q))] /\
       wallet_of s' (id user) base = Some (bid, inc (op_amount p) (op_amount p) bw) /\
       wallet_of s' (id user) "USDT"
         = Some (uw, inc (- (op_amount p * q)) (- (op_amount p * q)) usdt))
  /\
  (side p = "sell" -> (op_amount p <= available bw)%Q ->
     exists r s',
       market_order hash_password e p s = (Ret r, s') /\
       price r = q /\
       orders s' = orders s ++
         [(order_id r, mkOrder (id user) "sell" base "USDT" (op_amount p)
                               (Some q) (Some (op_amount p * q)%Q))] /\
       wallet_of s' (id user) base
         = Some (bid, inc (- op_amount p) (- op_amount p) bw) /\
       wallet_of s' (id user) "USDT"
         = Some (uw, inc (op_amount p * q) (op_amount p * q) usdt)).
Proof.
  intros Hauth Hfetch Hup Hmem Hq Hz Hpos U Hu Hb.
  destruct (fetch_prices_ledger e s) as (ps' & s1' & Hf' & Us & Ws & Os & _).
  rewrite Hfetch in Hf'. inversion Hf'; subst ps' s1'. clear Hf'.
  assert (U1 : unique_ids (wallets s1) = true) by now rewrite Ws.
  assert (Hu1 : wallet_of s1 (id user) "USDT" = Some (uw, usdt))
    by (unfold wallet_of in *; now rewrite Ws).
  assert (Hb1 : wallet_of s1 (id user) base = Some (bid, bw))
    by (unfold wallet_of in *; now rewrite Ws).
  assert (Nub : uw <> bid).
  { apply (distinct_wallets s (id user) "USDT" base uw bid usdt bw U Hu Hb).
    intro X. symmetry in X. revert X. now apply market_not_USDT. }
  assert (Hord : Qltb 0 (op_amount p) = true) by now apply Qltb_true.
  assert (Hbase : mem base Order_base_assets = true) by exact Hmem.
  split.
  - intros Hside Hav.
    assert (Hcost : Qltb (available usdt) (op_amount p * q) = false).
    { apply Qltb_false. rewrite Hz. lra. }
    unfold market_order. unfold bind at 1. rewrite Hauth.
    unfold bind at 1. rewrite Hfetch. cbv zeta. rewrite Hup, Hmem.
    unfold getitem. rewrite Hq. run.
    rewrite Hside. change (String.eqb "buy" "buy") with true. cbv iota.
    cbv beta. rewrite Hu1, Hcost. cbv beta.
    unfold wallet_of at 1. cbn [wallets].
    rewrite (wallet_frame _ _ _ uw _ (inc_keeps_key _ _) U1); fold (wallet_of s1 (id user) base); rewrite Hb1.
    cbv beta iota. unfold Order_new. change (mem "buy" Order_sides) with true.
    rewrite Hbase, Hord. run.
    cbn [andb]. cbv beta iota.
    do 2 eexists. split; [reflexivity|]. cbn [price order_id orders].
    split; [reflexivity|]. split; [now rewrite Os|].
    assert (Eub : Nat.eqb uw bid = false) by now apply Nat.eqb_neq.
    assert (Ebu : Nat.eqb bid uw = false) by (apply Nat.eqb_neq; congruence).
    assert (U2 : unique_ids (update_one uw (inc (- (op_amount p * q)) (- (op_amount p * q)))
                                        (wallets s1)) = true)
      by now rewrite unique_ids_update_one.
    split; unfold wallet_of at 1; cbn [wallets];
      rewrite (wallet_frame _ _ _ bid _ (inc_keeps_key _ _) U2);
      rewrite (wallet_frame _ _ _ uw _ (inc_keeps_key _ _) U1).
    + unfold wallet_of in Hb1. now rewrite Hb1, Ebu, Nat.eqb_refl.
    + unfold wallet_of in Hu1. now rewrite Hu1, Nat.eqb_refl, Eub.
  - intros Hside Hav.
    assert (Hcost : Qltb (available bw) (op_amount p) = false) by now apply Qltb_false.
    unfold market_order. unfold bind at 1. rewrite Hauth.
    unfold bind at 1. rewrite Hfetch. cbv zeta. rewrite Hup, Hmem.
    unfold getitem. rewrite Hq. run.
    rewrite Hside. change (String.eqb "sell" "buy") with false.
    change (String.eqb "sell" "sell") with true. cbv beta iota.
    rewrite Hb1, Hcost. cbv beta.
    unfold wallet_of at 1. cbn [wallets].
    rewrite (wallet_frame _ _ _ bid _ (inc_keeps_key _ _) U1); fold (wallet_of s1 (id user) "USDT"); rewrite Hu1.
    cbv beta iota. unfold Order_new. change (mem "sell" Order_sides) with true.
    rewrite Hbase, Hord. run. cbn [andb]. cbv beta iota.
    do 2 eexists. split; [reflexivity|]. cbn [price order_id orders].
    split; [reflexivity|]. split; [now rewrite Os|].
    assert (Eub : Nat.eqb uw bid = false) by now apply Nat.eqb_neq.
    assert (Ebu : Nat.eqb bid uw = false) by (apply Nat.eqb_neq; congruence).
    assert (U2 : unique_ids (update_one bid (inc (- op_amount p) (- op_amount p))
                                        (wallets s1)) = true)
      by now rewrite unique_ids_update_one.
    split; unfold wallet_of at 1; cbn [wallets];
      rewrite (wallet_frame _ _ _ uw _ (inc_keeps_key _ _) U2);
      rewrite (wallet_frame _ _ _ bid _ (inc_keeps_key _ _) U1).
    + unfold wallet_of in Hb1. now rewrite Hb1, Ebu, Nat.eqb_refl.
    + unfold wallet_of in Hu1. now rewrite Hu1, Nat.eqb_refl, Eub.
Qed.

Lemma auth_cases (e pw : string) (s : World) :
  (exists user, auth_required hash_password e pw s = (Ret user, s)) \/
  (exists err, auth_required hash_password e pw s = (Raise err, s)).
Proof.
  pose proof (auth_required_state e pw s) as H.
  destruct (auth_required hash_password e pw s) as [[user|err] s0]; simpl in H; subst s0; eauto.
Qed.







(** ** Wallet rows and the schema *)

Lemma USD_wallet_rejected (uid : ObjectId) (b a : Q) (s : World) :
  Wallet_new uid "USD" b a s = (Raise (ValidationError "Wallet"), s).
Proof. reflexivity. Qed.

Lemma no_USD_wallet (s : World) (uid : ObjectId) :
  wallets_valid s = true -> wallet_of s uid "USD" = None.
Proof.
  intro V. destruct (wallet_of s uid "USD") as [[wid w]|] eqn:H; [|reflexivity].
  pose proof (wallet_of_valid _ _ _ _ _ V H) as X. vm_compute in X. discriminate.
Qed.

(** [register] stores wallets for BTC, ETH and USDT only: the USD row is
    refused by the schema and the refusal is swallowed. *)
Lemma register_no_USD_wallet (s : World) (p : AuthPayload) (uid : ObjectId) :
  wallets_valid s = true ->
  wallets_valid (exec (register hash_password p) s) = true /\
  wallet_of (exec (register hash_password p) s) uid "USD" = None.
Proof.
  intro V.
  assert (V' : wallets_valid (exec (register hash_password p) s) = true).
  { unfold exec, register, get_user_by_email. run.
    destruct (find_one _ (users s)); [exact V|].
    cbn [for_each]. unfold Wallet_new.
    change (mem "BTC" Wallet_assets) with true.
    change (mem "ETH" Wallet_assets) with true.
    change (mem "USDT" Wallet_assets) with true.
    change (mem "USD" Wallet_assets) with false.
    run. unfold wallets_valid in *. cbn [wallets].
    rewrite !forallb_app, V. reflexivity. }
  split; [exact V' | now apply no_USD_wallet].
Qed.

(** C3, evaluated. Alice, just registered, buys -1 BTC while BTC is quoted
    at 50000.  The USDT check passes (0 is not below -50000), the USDT
    wallet is moved by +50000 and the BTC wallet by -1, and only then does
    the [Order] model reject the amount: the call fails, no order is stored,
    and both wallets have changed. *)
Theorem negative_buy_fails_after_moving_funds :
  let p := mkOrderPayload "alice@laxo.io" "pw" "buy" "BTC" (-1) in
  fst (market_order sha env_up p world_alice) = Raise (ValidationError "Order") /\
  wallet_of world_alice 0%nat "USDT" = Some (3%nat, mkWallet 0%nat "USDT" 0 0) /\
  wallet_of world_alice 0%nat "BTC" = Some (1%nat, mkWallet 0%nat "BTC" 0 0) /\
  wallet_of (exec (market_order sha env_up p) world_alice) 0%nat "USDT"
    = Some (3%nat, mkWallet 0%nat "USDT" 50000 50000) /\
  wallet_of (exec (market_order sha env_up p) world_alice) 0%nat "BTC"
    = Some (1%nat, mkWallet 0%nat "BTC" (-1) (-1)) /\
  orders (exec (market_order sha env_up p) world_alice) = [].
Proof. cbv zeta. repeat split; vm_compute; reflexivity. Qed.

(** For the requests the [Order] schema admits (amount above zero) and an
    account holding its wallets, [market_order] does keep the two legs
    together: a failing call leaves wallets and orders as they were. *)
Lemma market_order_failure_atomic (e : Env) (s s' : World) (p : OrderPayload) (err : Exn) :
  unique_ids (wallets s) = true ->
  (0 < op_amount p)%Q ->
  (forall uid a, mem a ["BTC"; "ETH"; "USDT"] = true ->
     In uid (map fst (users s)) -> wallet_of s uid a <> None) ->
  market_order hash_password e p s = (Raise err, s') ->
  wallets s' = wallets s /\ orders s' = orders s.
Proof.
  intros U Hpos Hall. apply Qltb_true in Hpos.
  unfold market_order. unfold bind at 1.
  destruct (auth_cases (op_email p) (op_password p) s) as [[user Ha]|[err0 Ha]];
    rewrite Ha; [|intro X; inversion X; subst; auto].
  assert (Huser : In (id user) (map fst (users s))).
  { unfold auth_required, get_user_by_email in Ha. revert Ha. run.
    destruct (find_one _ (users s)) as [[uid u]|] eqn:Fu; [|discriminate].
    destruct (String.eqb _ _); cbn [negb]; [|discriminate].
    intro X. inversion X; subst. cbn [id].
    apply find_one_some in Fu. destruct Fu as [Hin _].
    apply in_map_iff. exists (uid, u). split; [reflexivity | exact Hin]. }
  destruct (fetch_prices_ledger e s) as (ps & s1 & Hfetch & _ & Ws & Os & _).
  unfold bind at 1. rewrite Hfetch. cbv zeta.
  assert (U1 : unique_ids (wallets s1) = true) by now rewrite Ws.
  assert (Hall1 : forall a, mem a ["BTC"; "ETH"; "USDT"] = true ->
                            wallet_of s1 (id user) a <> None).
  { intros a Hm. unfold wallet_of. rewrite Ws. now apply Hall. }
  destruct (mem (upper (base_asset p)) ["BTC"; "ETH"]) eqn:Hm; cbn [negb];
    [|intro X; inversion X; subst; auto].
  set (base := upper (base_asset p)) in *.
  assert (Hm3 : mem base ["BTC"; "ETH"; "USDT"] = true).
  { unfold mem in *. cbn [existsb] in *.
    destruct (String.eqb base "BTC"), (String.eqb base "ETH"); cbn in *; congruence. }
  unfold getitem. destruct (lookup ps base) as [q|] eqn:Hq;
    [|intro X; inversion X; subst; auto].
  run. unfold Order_new.
  destruct (String.eqb (side p) "buy") eqn:Sb;
    [|destruct (String.eqb (side p) "sell") eqn:Ss]; cbv beta.
  - apply String.eqb_eq in Sb. rewrite Sb.
    destruct (wallet_of s1 (id user) "USDT") as [[uw usdt]|] eqn:Hu;
      [|intro X; inversion X; subst; auto].
    destruct (Qltb (available usdt) (op_amount p * q));
      [intro X; inversion X; subst; auto|].
    cbv beta. unfold wallet_of at 1. cbn [wallets].
    rewrite (wallet_frame _ _ _ uw _ (inc_keeps_key _ _) U1).
    fold (wallet_of s1 (id user) base).
    destruct (wallet_of s1 (id user) base) as [[bid bw]|] eqn:Hb;
      [|exfalso; now apply (Hall1 base Hm3)].
    cbv beta iota. change (mem "buy" Order_sides) with true.
    change (mem base Order_base_assets) with (mem base ["BTC"; "ETH"]).
    rewrite Hm, Hpos. cbn [andb]. discriminate.
  - apply String.eqb_eq in Ss. rewrite Ss.
    destruct (wallet_of s1 (id user) base) as [[bid bw]|] eqn:Hb;
      [|intro X; inversion X; subst; auto].
    destruct (Qltb (available bw) (op_amount p));
      [intro X; inversion X; subst; auto|].
    cbv beta. unfold wallet_of at 1. cbn [wallets].
    rewrite (wallet_frame _ _ _ bid _ (inc_keeps_key _ _) U1).
    fold (wallet_of s1 (id user) "USDT").
    destruct (wallet_of s1 (id user) "USDT") as [[uw usdt]|] eqn:Hu;
      [|exfalso; now apply (Hall1 "USDT" eq_refl)].
    cbv beta iota. change (mem "sell" Order_sides) with true.
    change (mem base Order_base_assets) with (mem base ["BTC"; "ETH"]).
    rewrite Hm, Hpos. cbn [andb]. discriminate.
  - intro X; inversion X; subst; auto.
Qed.

End Properties.

(** * Concrete runs *)



(** C2, refuted as stated. The price API is down and nothing is cached, so
    BTC is quoted at the default 0.  Alice, with empty wallets, buys 1 BTC:
    the call succeeds at price 0, her BTC wallet holds 1 and the order is
    stored. *)
Lemma zero_price_buy_settles :
  let p := mkOrderPayload "alice@laxo.io" "pw" "buy" "BTC" 1 in
  fst (fetch_prices env_down world_alice) = Ret default_prices /\
  fst (market_order sha env_down p world_alice) = Ret (mkOrderResponse 4%nat 0) /\
  wallet_of world_alice 0%nat "BTC" = Some (1%nat, mkWallet 0%nat "BTC" 0 0) /\
  wallet_of (exec (market_order sha env_down p) world_alice) 0%nat "BTC"
    = Some (1%nat, mkWallet 0%nat "BTC" 1 1) /\
  orders (exec (market_order sha env_down p) world_alice)
    = [(4%nat, mkOrder 0%nat "buy" "BTC" "USDT" 1 (Some 0%Q) (Some 0%Q))].
Proof. cbv zeta. repeat split; vm_compute; reflexivity. Qed.

Lemma trade_settles_at_price_zero_witness :
  let p := mkOrderPayload "alice@laxo.io" "pw" "buy" "BTC" 1 in
  exists r s',
    market_order sha env_down p world_alice = (Ret r, s') /\
    price r = 0%Q /\
    orders s' = orders world_alice ++
      [(order_id r, mkOrder 0%nat "buy" "BTC" "USDT" 1 (Some 0%Q) (Some (1 * 0)%Q))] /\
    wallet_of s' 0%nat "BTC" = Some (1%nat, inc 1 1 (mkWallet 0%nat "BTC" 0 0)) /\
    wallet_of s' 0%nat "USDT"
      = Some (3%nat, inc (- (1 * 0)) (- (1 * 0)) (mkWallet 0%nat "USDT" 0 0)).
Proof.
  cbv zeta.
  refine (proj1 (trade_settles_at_price_zero sha env_down world_alice world_alice
            (mkOrderPayload "alice@laxo.io" "pw" "buy" "BTC" 1)
            (mkAuthUser 0%nat "alice@laxo.io" false) default_prices 0%Q "BTC"
            3%nat (mkWallet 0%nat "USDT" 0 0) 1%nat (mkWallet 0%nat "BTC" 0 0)
            _ _ _ _ _ _ _ _ _ _) _ _);
    try reflexivity.
  discriminate.
Defined.

(** C4, refuted as stated. Withdrawal 9 (30 USDT) is already approved and
    the wallet stands at 70/70.  A second approving call succeeds and takes
    30 off the balance again; a rejecting call on the approved withdrawal
    succeeds too, releases 30 and marks it rejected. *)
Lemma second_decision_moves_funds_again :
  find_by_id 9%nat (withdrawals world_settled)
    = Some (9%nat, mkWithdrawal 0%nat "USDT" 30 "bank" wd_approved) /\
  wallet_of world_settled 0%nat "USDT" = Some (3%nat, mkWallet 0%nat "USDT" 70 70) /\
  fst (approve_withdrawal sha (decide_9 true) world_settled) = Ret true /\
  wallet_of (exec (approve_withdrawal sha (decide_9 true)) world_settled) 0%nat "USDT"
    = Some (3%nat, mkWallet 0%nat "USDT" 40 70) /\
  fst (approve_withdrawal sha (decide_9 false) world_settled) = Ret true /\
  wallet_of (exec (approve_withdrawal sha (decide_9 false)) world_settled) 0%nat "USDT"
    = Some (3%nat, mkWallet 0%nat "USDT" 70 100) /\
  find_by_id 9%nat (withdrawals (exec (approve_withdrawal sha (decide_9 false)) world_settled))
    = Some (9%nat, mkWithdrawal 0%nat "USDT" 30 "bank" wd_rejected).
Proof. repeat split; vm_compute; reflexivity. Qed.

Lemma withdrawal_decide_ignores_status_witness :
  let wd := mkWithdrawal 0%nat "USDT" 30 "bank" wd_approved in
  let w := mkWallet 0%nat "USDT" 70 70 in
  find_by_id 9%nat (withdrawals world_settled) = Some (9%nat, wd) /\
  wallet_of world_settled 0%nat "USDT" = Some (3%nat, w) /\
  exists s',
    approve_withdrawal sha (decide_9 true) world_settled = (Ret true, s') /\
    wallet_of s' 0%nat "USDT" = Some (3%nat, mkWallet 0%nat "USDT" (70 - 30) 70) /\
    find_by_id 9%nat (withdrawals s') = Some (9%nat, set_withdrawal_status wd_approved wd).
Proof.
  cbv zeta. split; [reflexivity|]. split; [reflexivity|].
  refine (proj1 (withdrawal_decide_ignores_status sha world_settled (decide_9 true)
            (mkAuthUser 5%nat "root@laxo.io" true) 9%nat
            (mkWithdrawal 0%nat "USDT" 30 "bank" wd_approved) 3%nat
            (mkWallet 0%nat "USDT" 70 70) _ _ _ _ _ _) _ _);
    try reflexivity.
  discriminate.
Defined.






Lemma fetch_prices_never_fails_witness :
  cache_wf world_alice = true /\
  exists ps s',
    fetch_prices env_down world_alice = (Ret ps, s') /\
    (forall a, mem a ["BTC"; "ETH"; "USDT"] = true ->
       exists q, getitem ps a s' = (Ret q, s')) /\
    (cache_is_fresh env_down world_alice = false -> feed env_down = FeedError ->
     PRICE_CACHE world_alice <> [] -> ps = PRICE_CACHE world_alice /\ s' = world_alice) /\
    (feed env_down = FeedError -> PRICE_CACHE world_alice = [] ->
       ps = default_prices /\ s' = world_alice /\
       lookup ps "BTC" = Some 0%Q /\ lookup ps "ETH" = Some 0%Q) /\
    (forall ok, fst (fetch_prices (mkEnv (now env_down) (feed env_down) ok) world_alice)
                = Ret ps) /\
    cache_wf s' = true.
Proof.
  split; [reflexivity|].
  apply (fetch_prices_never_fails env_down world_alice). reflexivity.
Defined.


(** * Further properties *)

(** ** Lists and collections *)

Lemma find_one_app {A} (p : A -> bool) (c c' : Coll A) :
  find_one p (c ++ c') =
  match find_one p c with
  | Some d => Some d
  | None => find_one p c'
  end.
Proof.
  unfold find_one. induction c as [|d r IH]; [reflexivity|].
  simpl. destruct (p (snd d)); [reflexivity | exact IH].
Qed.


Lemma ids_below_fresh {A} (n : ObjectId) (c : Coll A) :
  ids_below n c = true -> find_by_id n c = None.
Proof.
  unfold ids_below, find_by_id. induction c as [|d r IH]; [reflexivity|].
  cbn [forallb find]. intro H. apply andb_prop in H. destruct H as [Hd Hr].
  apply Nat.ltb_lt in Hd.
  destruct (Nat.eqb _ n) eqn:E; [apply Nat.eqb_eq in E; lia | now apply IH].
Qed.

Section Accounts.

Variable hash_password : string -> string.

Ltac run :=
  cbv [bind ret raise get modify try_except fresh_oid exec
       set_users set_wallets set_deposits set_withdrawals set_orders set_pricesnapshots
       set_price_cache
       create_document_user create_document_wallet create_document_deposit
       create_document_withdrawal create_document_order
       wallet_find_one wallet_inc wallet_inc_balance wallet_inc_available
       user_set_account_status deposit_set_status withdrawal_set_status
       approve_deposit doc_id negb];
  cbn [fst snd users wallets deposits withdrawals orders pricesnapshots next_oid
       PRICE_CACHE PRICE_CACHE_TS].

(** The answer of [auth_required] is decided by the first user row with
    the email: the whole run, for the three cases. *)
Lemma auth_required_run (e pw : string) (s : World) :
  auth_required hash_password e pw s =
  match find_one (fun u => String.eqb (email u) e) (users s) with
  | None => (Raise (HTTPException 401 "Invalid credentials"), s)
  | Some (uid, u) =>
      if String.eqb (password_hash u) (hash_password pw)
      then (Ret (mkAuthUser uid (email u) (is_admin u)), s)
      else (Raise (HTTPException 401 "Invalid credentials"), s)
  end.
Proof.
  unfold auth_required, get_user_by_email. run.
  destruct (find_one _ (users s)) as [[uid u]|]; [|reflexivity].
  destruct (String.eqb _ _); reflexivity.
Qed.

(** X4. [auth_required] never writes, and it answers either 401 or the
    identity of a stored user row that carries the given email and the hash
    of the given password; the admin flag it reports is that row's. *)
Theorem auth_required_sound (e pw : string) (s : World) :
  auth_required hash_password e pw s
    = (Raise (HTTPException 401 "Invalid credentials"), s) \/
  exists uid u,
    auth_required hash_password e pw s = (Ret (mkAuthUser uid e (is_admin u)), s) /\
    In (uid, u) (users s) /\ email u = e /\ password_hash u = hash_password pw.
Proof.
  rewrite auth_required_run.
  destruct (find_one _ (users s)) as [[uid u]|] eqn:F; [|now left].
  apply find_one_some in F. destruct F as [Hin He]. apply String.eqb_eq in He.
  destruct (String.eqb (password_hash u) (hash_password pw)) eqn:Hp; [|now left].
  apply String.eqb_eq in Hp. right. exists uid, u. subst e. auto.
Qed.

Lemma register_run (p : AuthPayload) (s : World) :
  find_one (fun u => String.eqb (email u) (ap_email p)) (users s) = None ->
  register hash_password p s
  = (Ret (next_oid s),
     with_account (mkUser (before_at (ap_email p)) (ap_email p)
                          (hash_password (ap_password p)) st_new false) s).
Proof.
  intro F. unfold register, get_user_by_email. run. rewrite F.
  cbn [for_each]. unfold Wallet_new.
  change (mem "BTC" Wallet_assets) with true.
  change (mem "ETH" Wallet_assets) with true.
  change (mem "USDT" Wallet_assets) with true.
  change (mem "USD" Wallet_assets) with false.
  run. unfold with_account. now rewrite <- !app_assoc.
Qed.

Lemma register_taken (p : AuthPayload) (s : World) d :
  find_one (fun u => String.eqb (email u) (ap_email p)) (users s) = Some d ->
  register hash_password p s = (Raise (HTTPException 400 "Email already registered"), s).
Proof. intro F. unfold register, get_user_by_email. run. now rewrite F. Qed.

Lemma bootstrap_admin_run (e pw : string) (s : World) :
  find_one (fun u => String.eqb (email u) e) (users s) = None ->
  bootstrap_admin hash_password e pw s
  = (Raise (ValidationError "Wallet"),
     with_account (mkUser "admin" e (hash_password pw) st_kyc_verified true) s).
Proof.
  intro F. unfold bootstrap_admin, get_user_by_email. run. rewrite F.
  cbn [for_each]. unfold Wallet_new.
  change (mem "BTC" Wallet_assets) with true.
  change (mem "ETH" Wallet_assets) with true.
  change (mem "USDT" Wallet_assets) with true.
  change (mem "USD" Wallet_assets) with false.
  run. unfold with_account. now rewrite <- !app_assoc.
Qed.

Lemma bootstrap_admin_taken (e pw : string) (s : World) d :
  find_one (fun u => String.eqb (email u) e) (users s) = Some d ->
  bootstrap_admin hash_password e pw s = (Raise (HTTPException 400 "Exists"), s).
Proof. intro F. unfold bootstrap_admin, get_user_by_email. run. now rewrite F. Qed.

Lemma login_new_account (u : User) (pw : string) (s : World) :
  find_one (fun x => String.eqb (email x) (email u)) (users s) = None ->
  password_hash u = hash_password pw ->
  login hash_password (mkAuthPayload (email u) pw) (with_account u s)
  = (Ret (mkAuthUser (next_oid s) (email u) (is_admin u)), with_account u s).
Proof.
  intros F Hp. unfold login. cbn [ap_email ap_password]. rewrite auth_required_run.
  unfold with_account at 1. cbn [users]. rewrite find_one_app, F.
  unfold find_one. cbn [find snd]. rewrite String.eqb_refl, Hp, String.eqb_refl.
  reflexivity.
Qed.

(** X1. [register] with an email no user has answers the new user id and
    stores one user row (status new, not admin, name cut at the first @) and
    three wallet rows BTC, ETH, USDT at 0/0 under the next four ids, and no
    USD row; a login with the same credentials then succeeds as that
    user. *)
Theorem register_then_login (p : AuthPayload) (s : World) :
  find_one (fun u => String.eqb (email u) (ap_email p)) (users s) = None ->
  let u := mkUser (before_at (ap_email p)) (ap_email p)
                  (hash_password (ap_password p)) st_new false in
  let n := next_oid s in
  exists s',
    register hash_password p s = (Ret n, s') /\
    users s' = users s ++ [(n, u)] /\
    wallets s' = wallets s ++ [(S n, mkWallet n "BTC" 0 0);
                               (S (S n), mkWallet n "ETH" 0 0);
                               (S (S (S n)), mkWallet n "USDT" 0 0)] /\
    login hash_password p s' = (Ret (mkAuthUser n (ap_email p) false), s').
Proof.
  intros F u n. exists (with_account u s).
  split; [now apply register_run|]. split; [reflexivity|]. split; [reflexivity|].
  destruct p as [e pw]. exact (login_new_account u pw s F eq_refl).
Qed.

(** X2. Once [register] has run for an email, whatever it answered, every
    later [register] with that email, under any password, fails with 400
    "Email already registered" and leaves the store as it was. *)
Theorem register_same_email_again (p p' : AuthPayload) (s : World) :
  ap_email p' = ap_email p ->
  register hash_password p' (exec (register hash_password p) s)
  = (Raise (HTTPException 400 "Email already registered"),
     exec (register hash_password p) s).
Proof.
  intro He.
  destruct (find_one (fun u => String.eqb (email u) (ap_email p)) (users s))
    as [d|] eqn:F.
  - unfold exec. rewrite (register_taken p s d F). cbn [snd].
    apply (register_taken p' s d). now rewrite He.
  - unfold exec. rewrite (register_run p s F). cbn [snd].
    eapply register_taken. rewrite He. unfold with_account. cbn [users].
    rewrite find_one_app, F. unfold find_one. cbn [find snd email].
    rewrite String.eqb_refl. reflexivity.
Qed.

(** X3. [bootstrap_admin] never answers with success.  For an email
    already stored it fails with 400 "Exists" and writes nothing.  For a new
    email it stores the admin user and the BTC, ETH and USDT wallets, then
    fails on the USD wallet, which the [Wallet] schema refuses; the rows
    stay, and a login with the credentials succeeds as an administrator. *)
Theorem bootstrap_admin_never_returns (e pw : string) (s : World) :
  match find_one (fun u => String.eqb (email u) e) (users s) with
  | Some _ =>
      bootstrap_admin hash_password e pw s = (Raise (HTTPException 400 "Exists"), s)
  | None =>
      let s' := with_account (mkUser "admin" e (hash_password pw) st_kyc_verified true) s in
      bootstrap_admin hash_password e pw s = (Raise (ValidationError "Wallet"), s') /\
      login hash_password (mkAuthPayload e pw) s'
        = (Ret (mkAuthUser (next_oid s) e true), s')
  end.
Proof.
  destruct (find_one _ (users s)) as [d|] eqn:F.
  - now apply (bootstrap_admin_taken e pw s d).
  - cbv zeta. split; [now apply bootstrap_admin_run|].
    exact (login_new_account (mkUser "admin" e (hash_password pw) st_kyc_verified true)
                             pw s F eq_refl).
Qed.

End Accounts.

(** ** Guards, failures and compositions of the ledger handlers *)

Section Ledger.

Variable hash_password : string -> string.

Ltac run :=
  cbv [bind ret raise get modify try_except fresh_oid exec
       set_users set_wallets set_deposits set_withdrawals set_orders set_pricesnapshots
       set_price_cache
       create_document_user create_document_wallet create_document_deposit
       create_document_withdrawal create_document_order
       wallet_find_one wallet_inc wallet_inc_balance wallet_inc_available
       user_set_account_status deposit_set_status withdrawal_set_status
       approve_deposit doc_id negb];
  cbn [fst snd users wallets deposits withdrawals orders pricesnapshots next_oid
       PRICE_CACHE PRICE_CACHE_TS].

Ltac unchanged := intro X; inversion X; subst; reflexivity.

Lemma create_deposit_failure (s s' : World) (p : DepositPayload) (err : Exn) :
  create_deposit hash_password p s = (Raise err, s') -> s' = s.
Proof.
  unfold create_deposit. unfold bind at 1.
  destruct (auth_cases hash_password (dp_email p) (dp_password p) s) as [[user Ha]|[e0 Ha]];
    rewrite Ha; [|unchanged].
  unfold Deposit_new. destruct (mem (dp_asset p) Deposit_assets); run; [|unchanged].
  destruct (wallet_of _ _ _) as [[wid w]|]; discriminate.
Qed.

Lemma create_withdrawal_failure (s s' : World) (p : WithdrawalPayload) (err : Exn) :
  wallets_valid s = true ->
  create_withdrawal hash_password p s = (Raise err, s') -> s' = s.
Proof.
  intro V. unfold create_withdrawal. unfold bind at 1.
  destruct (auth_cases hash_password (wp_email p) (wp_password p) s) as [[user Ha]|[e0 Ha]];
    rewrite Ha; [|unchanged].
  run. destruct (wallet_of s (id user) (wp_asset p)) as [[wid w]|] eqn:Hw; [|unchanged].
  destruct (Qltb (available w) (wp_amount p)); [unchanged|].
  unfold Withdrawal_new.
  rewrite (Wallet_assets_withdrawable _ (wallet_of_valid _ _ _ _ _ V Hw)).
  discriminate.
Qed.

Lemma approve_withdrawal_failure (s s' : World) (p : AdminApprovePayload) (err : Exn) :
  approve_withdrawal hash_password p s = (Raise err, s') -> s' = s.
Proof.
  unfold approve_withdrawal. unfold bind at 1.
  destruct (auth_cases hash_password (aa_email p) (aa_password p) s) as [[admin Ha]|[e0 Ha]];
    rewrite Ha; [|unchanged].
  destruct (au_is_admin admin); cbn [negb]; [|unchanged].
  destruct (withdrawal_id p) as [i|]; [|unchanged].
  run. destruct (find_by_id i (withdrawals s)) as [[i' wd]|]; [|unchanged].
  destruct (approve p); cbv beta.
  - destruct (wallet_of s (wd_user_id wd) (wd_asset wd)) as [[wid w]|]; [|unchanged].
    destruct (Qltb (balance w) (wd_amount wd)); [unchanged | discriminate].
  - destruct (wallet_of s (wd_user_id wd) (wd_asset wd)) as [[wid w]|]; discriminate.
Qed.

(** X5. In a store whose wallet rows are schema-valid, a deposit, a
    withdrawal request or a withdrawal decision that fails, for whatever
    reason, leaves the whole store exactly as it was: every raise of these
    three handlers comes before their first write. *)
Theorem failed_requests_write_nothing (s : World) :
  wallets_valid s = true ->
  (forall p err s', create_deposit hash_password p s = (Raise err, s') -> s' = s) /\
  (forall p err s', create_withdrawal hash_password p s = (Raise err, s') -> s' = s) /\
  (forall p err s', approve_withdrawal hash_password p s = (Raise err, s') -> s' = s).
Proof.
  intro V. split; [|split]; intros p err s' H.
  - exact (create_deposit_failure _ _ _ _ H).
  - exact (create_withdrawal_failure _ _ _ _ V H).
  - exact (approve_withdrawal_failure _ _ _ _ H).
Qed.

(** X6. [approve_withdrawal] answers 403 "Admin only" to every caller
    whose user row is not an administrator, before it looks at the request;
    to an administrator it answers 400 "Invalid id" for a text that is no
    ObjectId and 404 "Not found" for an id no withdrawal has.  The store is
    unchanged in all three cases. *)
Theorem approve_withdrawal_guards (s : World) (p : AdminApprovePayload) (caller : AuthUser) :
  auth_required hash_password (aa_email p) (aa_password p) s = (Ret caller, s) ->
  (au_is_admin caller = false ->
     approve_withdrawal hash_password p s = (Raise (HTTPException 403 "Admin only"), s)) /\
  (au_is_admin caller = true -> withdrawal_id p = None ->
     approve_withdrawal hash_password p s = (Raise (HTTPException 400 "Invalid id"), s)) /\
  (au_is_admin caller = true ->
     forall i, withdrawal_id p = Some i -> find_by_id i (withdrawals s) = None ->
     approve_withdrawal hash_password p s = (Raise (HTTPException 404 "Not found"), s)).
Proof.
  intro Ha. split; [|split].
  - intro Hn. unfold approve_withdrawal. unfold bind at 1. now rewrite Ha, Hn.
  - intros Hy Hid. unfold approve_withdrawal. unfold bind at 1. now rewrite Ha, Hy, Hid.
  - intros Hy i Hid Hf. unfold approve_withdrawal. unfold bind at 1.
    rewrite Ha, Hy, Hid. run. now rewrite Hf.
Qed.





(** X9. A successful refresh stores the fetched map with the clock
    reading, and every call during the next 20 seconds is answered with
    that map from the cache: the API is not asked (the answer is the same
    whatever the feed would say) and nothing is written. *)
Theorem refresh_then_cached (e e2 : Env) (s : World) (b t : option Q) :
  cache_is_fresh e s = false ->
  feed e = FeedJson b t ->
  (now e <= now e2 < now e + 20000000)%Z ->
  let s1 := exec (fetch_prices e) s in
  fetch_prices e s = (Ret (refreshed b t), s1) /\
  PRICE_CACHE s1 = refreshed b t /\
  PRICE_CACHE_TS s1 = Some (now e) /\
  fetch_prices e2 s1 = (Ret (refreshed b t), s1).
Proof.
  intros F E T s1.
  assert (R := fetch_prices_refresh e s b t F E).
  assert (E1 : s1 = snd (fetch_prices e s)) by reflexivity.
  rewrite R in E1. cbn [snd] in E1. clearbody s1.
  assert (C : PRICE_CACHE s1 = refreshed b t /\ PRICE_CACHE_TS s1 = Some (now e)).
  { rewrite E1. destruct (snapshot_ok e); split; reflexivity. }
  destruct C as [C1 C2].
  split; [now rewrite R, E1|]. split; [exact C1|]. split; [exact C2|].
  rewrite <- C1 at 1. apply fetch_prices_fresh.
  unfold cache_is_fresh. rewrite C1, C2. cbn [refreshed truthy andb].
  apply Z.ltb_lt. unfold timedelta_seconds.
  rewrite Z.mod_small by lia. apply Z.div_lt_upper_bound; lia.
Qed.

(** X10. A cache between 20 seconds and one day old is expired: with the
    API up the call answers the fetched map and overwrites cache and
    timestamp; with the API down it answers the old cache and writes
    nothing. *)
Theorem expired_cache_is_refreshed (e : Env) (s : World) (ts : Z) :
  PRICE_CACHE_TS s = Some ts ->
  (20000000 <= now e - ts < 86400000000)%Z ->
  (forall b t, feed e = FeedJson b t ->
     fst (fetch_prices e s) = Ret (refreshed b t) /\
     PRICE_CACHE (exec (fetch_prices e) s) = refreshed b t /\
     PRICE_CACHE_TS (exec (fetch_prices e) s) = Some (now e)) /\
  (feed e = FeedError ->
     fetch_prices e s = (Ret (cached_or_default s), s)).
Proof.
  intros T A.
  assert (F : cache_is_fresh e s = false).
  { unfold cache_is_fresh. rewrite T. apply andb_false_iff. right.
    apply Z.ltb_ge. unfold timedelta_seconds. rewrite Z.mod_small by lia.
    apply Z.div_le_lower_bound; lia. }
  split.
  - intros b t E. unfold exec. rewrite (fetch_prices_refresh e s b t F E). cbn [fst snd].
    destruct (snapshot_ok e); repeat split; reflexivity.
  - intro E. now apply fetch_prices_feed_error.
Qed.

End Ledger.

(** ** What every request keeps *)

Lemma forallb_map {A B} (f : B -> bool) (g : A -> B) (l : list A) :
  forallb f (map g l) = forallb (fun x => f (g x)) l.
Proof. induction l as [|x r IH]; [reflexivity|]. cbn. now rewrite IH. Qed.

Lemma existsb_map {A B} (f : B -> bool) (g : A -> B) (l : list A) :
  existsb f (map g l) = existsb (fun x => f (g x)) l.
Proof. induction l as [|x r IH]; [reflexivity|]. cbn. now rewrite IH. Qed.

Lemma forallb_pointwise {A} (f g : A -> bool) (l : list A) :
  (forall x, f x = g x) -> forallb f l = forallb g l.
Proof. intro H. induction l as [|x r IH]; [reflexivity|]. cbn. now rewrite H, IH. Qed.

Lemma ids_below_update_one {A} (f : A -> A) (c : Coll A) i n :
  ids_below n (update_one i f c) = ids_below n c.
Proof.
  unfold ids_below. induction c as [|[j x] r IH]; [reflexivity|].
  cbn [update_one]. destruct (Nat.eqb j i); cbn [forallb fst]; [reflexivity|].
  now rewrite IH.
Qed.

Lemma coll_wf_update_one {A} (f : A -> A) (c : Coll A) i n :
  coll_wf n (update_one i f c) = coll_wf n c.
Proof. unfold coll_wf. now rewrite unique_ids_update_one, ids_below_update_one. Qed.

Lemma ids_below_mono {A} (c : Coll A) n m :
  (n <= m)%nat -> ids_below n c = true -> ids_below m c = true.
Proof.
  unfold ids_below. intros L H. rewrite forallb_forall in *.
  intros d Hd. specialize (H d Hd). apply Nat.ltb_lt in H. apply Nat.ltb_lt. lia.
Qed.

Lemma coll_wf_mono {A} (c : Coll A) n m :
  (n <= m)%nat -> coll_wf n c = true -> coll_wf m c = true.
Proof.
  unfold coll_wf. intros L H. apply andb_prop in H. destruct H as [U B].
  now rewrite U, (ids_below_mono c n m L B).
Qed.

Lemma unique_ids_app_fresh {A} (c : Coll A) n d :
  ids_below n c = true -> unique_ids c = true -> unique_ids (c ++ [(n, d)]) = true.
Proof.
  unfold ids_below. induction c as [|[j x] r IH]; [reflexivity|].
  cbn [app unique_ids forallb fst]. intros B U.
  apply andb_prop in B. destruct B as [Bj Br].
  apply andb_prop in U. destruct U as [Uj Ur].
  apply Nat.ltb_lt in Bj.
  assert (E : Nat.eqb n j = false) by (apply Nat.eqb_neq; lia).
  apply andb_true_intro. split; [|now apply IH].
  apply negb_true_iff. rewrite existsb_app. apply orb_false_intro.
  - apply negb_true_iff. exact Uj.
  - cbn [existsb fst]. now rewrite E.
Qed.

Lemma coll_wf_app_fresh {A} (c : Coll A) n d :
  coll_wf n c = true -> coll_wf (S n) (c ++ [(n, d)]) = true.
Proof.
  unfold coll_wf. intro H. apply andb_prop in H. destruct H as [U B].
  rewrite (unique_ids_app_fresh c n d B U). cbn [andb].
  pose proof (ids_below_mono c n (S n) (Nat.le_succ_diag_r n) B) as B'.
  unfold ids_below in *. rewrite forallb_app. apply andb_true_intro. split; [exact B'|].
  cbn [forallb fst]. rewrite andb_true_r. apply Nat.ltb_lt. lia.
Qed.

Lemma docs_wf_spec (s : World) :
  docs_wf s = true <->
  coll_wf (next_oid s) (users s) = true /\ coll_wf (next_oid s) (wallets s) = true /\
  coll_wf (next_oid s) (deposits s) = true /\ coll_wf (next_oid s) (withdrawals s) = true /\
  coll_wf (next_oid s) (orders s) = true /\ coll_wf (next_oid s) (pricesnapshots s) = true.
Proof. unfold docs_wf. rewrite !andb_true_iff. tauto. Qed.

(** The account invariants read the wallet and user rows through their
    keys only. *)
Lemma accounts_wf_keys (s0 s : World) :
  map wallet_row_key (wallets s) = map wallet_row_key (wallets s0) ->
  map user_row_key (users s) = map user_row_key (users s0) ->
  accounts_wf s = accounts_wf s0.
Proof.
  intros Hw Hu.
  assert (V : forall x, wallets_valid x
            = forallb (fun k => mem (snd k) Wallet_assets) (map wallet_row_key (wallets x))).
  { intro x. unfold wallets_valid. now rewrite forallb_map. }
  assert (E : forall x, emails x
            = map (fun k => snd (fst (fst k))) (map user_row_key (users x))).
  { intro x. unfold emails. now rewrite map_map. }
  assert (O : forall x, wallets_owned x
            = forallb (fun k => existsb (fun u => Nat.eqb (fst (fst (fst u))) (snd (fst k)))
                                        (map user_row_key (users x)))
                      (map wallet_row_key (wallets x))).
  { intro x. unfold wallets_owned. rewrite forallb_map.
    apply forallb_pointwise. intro d. now rewrite existsb_map. }
  assert (C : forall x, wallets_complete x
            = forallb (fun u =>
                forallb (fun a =>
                  existsb (fun k => Nat.eqb (snd (fst k)) (fst (fst (fst u)))
                                    && String.eqb (snd k) a)
                          (map wallet_row_key (wallets x))) Wallet_assets)
                (map user_row_key (users x))).
  { intro x. unfold wallets_complete. rewrite forallb_map.
    apply forallb_pointwise. intro u. apply forallb_pointwise. intro a.
    now rewrite existsb_map. }
  unfold accounts_wf, emails_unique.
  rewrite (V s), (V s0), (E s), (E s0), (O s), (O s0), (C s), (C s0), Hw, Hu.
  reflexivity.
Qed.

(** *** The rules of [preserves] *)

Lemma pres_ret {A} (P : World -> Prop) (a : A) : preserves P (ret a).
Proof. intros s H. exact H. Qed.

Lemma pres_raise {A} (P : World -> Prop) (e : Exn) : preserves P (@raise A e).
Proof. intros s H. exact H. Qed.

Lemma pres_get (P : World -> Prop) : preserves P get.
Proof. intros s H. exact H. Qed.

Lemma pres_bind {A B} (P : World -> Prop) (c : M A) (k : A -> M B) :
  preserves P c -> (forall a, preserves P (k a)) -> preserves P (bind c k).
Proof.
  intros Hc Hk s H. unfold bind. specialize (Hc s H).
  destruct (c s) as [[a|e] s']; cbn [snd] in *; [now apply Hk | exact Hc].
Qed.

Lemma pres_try {A} (P : World -> Prop) (c h : M A) :
  preserves P c -> preserves P h -> preserves P (try_except c h).
Proof.
  intros Hc Hh s H. unfold try_except. specialize (Hc s H).
  destruct (c s) as [[a|e] s']; cbn [snd] in *; [exact Hc | now apply Hh].
Qed.

Lemma pres_modify (P : World -> Prop) (f : World -> World) :
  (forall s, P s -> P (f s)) -> preserves P (modify f).
Proof. intros Hf s H. now apply Hf. Qed.

Section Invariants.

Variable hash_password : string -> string.

Lemma pres_auth (P : World -> Prop) (e pw : string) :
  preserves P (auth_required hash_password e pw).
Proof. intros s H. now rewrite auth_required_state. Qed.

Ltac run :=
  cbv [bind ret raise get modify try_except fresh_oid exec
       set_users set_wallets set_deposits set_withdrawals set_orders set_pricesnapshots
       set_price_cache
       create_document_user create_document_wallet create_document_deposit
       create_document_withdrawal create_document_order create_document_pricesnapshot
       wallet_find_one wallet_inc wallet_inc_balance wallet_inc_available
       user_set_account_status deposit_set_status withdrawal_set_status
       approve_deposit doc_id negb];
  cbn [fst snd users wallets deposits withdrawals orders pricesnapshots next_oid
       PRICE_CACHE PRICE_CACHE_TS].

(** Breaks a handler into binds, branches and store primitives; [prim]
    closes the primitives. *)
Ltac pres_with prim :=
  repeat first
    [ match goal with
      | |- preserves _ (ret _) => apply pres_ret
      | |- preserves _ (raise _) => apply pres_raise
      | |- preserves _ get => apply pres_get
      | |- preserves _ (auth_required _ _ _) => apply pres_auth
      | |- preserves _ (bind _ _) => apply pres_bind; [|intro]
      | |- preserves _ (try_except _ _) => apply pres_try
      end
    | prim
    | match goal with
      | |- preserves _ (match ?x with _ => _ end) => destruct x
      end
    | progress cbv zeta
    | progress unfold wallet_find_one, Deposit_new, Withdrawal_new, Order_new, getitem,
        requests_get, doc_id, approve_deposit, wallet_inc, wallet_inc_balance,
        wallet_inc_available, user_set_account_status, deposit_set_status,
        withdrawal_set_status, set_users, set_wallets, set_deposits, set_withdrawals,
        set_price_cache ].

(** *** Ids stay unique and handed out *)

Lemma coll_wf_S {A} (c : Coll A) n : coll_wf n c = true -> coll_wf (S n) c = true.
Proof. apply coll_wf_mono. lia. Qed.

Ltac wf_open :=
  intros s H; apply docs_wf_spec in H; destruct H as (H1 & H2 & H3 & H4 & H5 & H6);
  run; apply docs_wf_spec;
  cbn [users wallets deposits withdrawals orders pricesnapshots next_oid];
  rewrite ?coll_wf_update_one;
  repeat split; auto using coll_wf_S, coll_wf_app_fresh.

Lemma wf_create_deposit (d : Deposit) :
  preserves (fun s => docs_wf s = true) (create_document_deposit d).
Proof. wf_open. Qed.

Lemma wf_create_withdrawal (w : Withdrawal) :
  preserves (fun s => docs_wf s = true) (create_document_withdrawal w).
Proof. wf_open. Qed.

Lemma wf_create_order (o : Order) :
  preserves (fun s => docs_wf s = true) (create_document_order o).
Proof. wf_open. Qed.

Lemma wf_create_pricesnapshot (ok : bool) (p : PriceSnapshot) :
  preserves (fun s => docs_wf s = true) (create_document_pricesnapshot ok p).
Proof. destruct ok; wf_open. Qed.

Ltac wf_prim :=
  idtac; match goal with
  | |- preserves _ (create_document_deposit _) => apply wf_create_deposit
  | |- preserves _ (create_document_withdrawal _) => apply wf_create_withdrawal
  | |- preserves _ (create_document_order _) => apply wf_create_order
  | |- preserves _ (create_document_pricesnapshot _ _) => apply wf_create_pricesnapshot
  | |- preserves _ (modify _) => apply pres_modify; wf_open
  end.

Lemma wf_fetch_prices (e : Env) :
  preserves (fun s => docs_wf s = true) (fetch_prices e).
Proof. unfold fetch_prices. pres_with wf_prim. Qed.

Lemma wf_create_deposit_handler (p : DepositPayload) :
  preserves (fun s => docs_wf s = true) (create_deposit hash_password p).
Proof. unfold create_deposit. pres_with wf_prim. Qed.

Lemma wf_create_withdrawal_handler (p : WithdrawalPayload) :
  preserves (fun s => docs_wf s = true) (create_withdrawal hash_password p).
Proof. unfold create_withdrawal. pres_with wf_prim. Qed.

Lemma wf_approve_withdrawal (p : AdminApprovePayload) :
  preserves (fun s => docs_wf s = true) (approve_withdrawal hash_password p).
Proof. unfold approve_withdrawal. pres_with wf_prim. Qed.

Lemma wf_market_order (e : Env) (p : OrderPayload) :
  preserves (fun s => docs_wf s = true) (market_order hash_password e p).
Proof.
  unfold market_order. apply pres_bind; [apply pres_auth|intro user].
  apply pres_bind; [apply wf_fetch_prices|intro ps].
  pres_with wf_prim.
Qed.

(** *** Rows are kept *)

Lemma evolves_refl (s : World) : evolves s s.
Proof. unfold evolves. repeat split; auto. exists []. now rewrite app_nil_r. Qed.

Lemma wallet_keys_update_one (i : ObjectId) (f : Wallet -> Wallet) (c : Coll Wallet) :
  (forall x, w_user_id (f x) = w_user_id x /\ w_asset (f x) = w_asset x) ->
  map wallet_row_key (update_one i f c) = map wallet_row_key c.
Proof.
  intro Hf. induction c as [|[j x] r IH]; [reflexivity|].
  cbn [update_one]. destruct (Nat.eqb j i); cbn [map]; [|now rewrite IH].
  unfold wallet_row_key at 1 3. cbn [fst snd]. destruct (Hf x) as [-> ->]. reflexivity.
Qed.

Lemma user_keys_update_one (i : ObjectId) (st : AccountStatus) (c : Coll User) :
  map user_row_key (update_one i (set_account_status st) c) = map user_row_key c.
Proof.
  induction c as [|[j x] r IH]; [reflexivity|].
  cbn [update_one]. destruct (Nat.eqb j i); cbn [map]; [reflexivity | now rewrite IH].
Qed.

Ltac ev_open s0 :=
  intros s (Hw & Hu & (l & Ho) & Hn); run; unfold evolves;
  cbn [users wallets orders next_oid];
  rewrite ?(wallet_keys_update_one _ _ _ (inc_keeps_key _ _)),
          ?(wallet_keys_update_one _ _ _ (inc_balance_keeps_key _)),
          ?(wallet_keys_update_one _ _ _ (inc_available_keeps_key _)),
          ?user_keys_update_one;
  split; [exact Hw | split; [exact Hu | split;
    [ first [ exists l; exact Ho
            | eexists; rewrite Ho, <- app_assoc; reflexivity ]
    | lia ] ] ].

Lemma ev_create_deposit s0 (d : Deposit) :
  preserves (evolves s0) (create_document_deposit d).
Proof. ev_open s0. Qed.

Lemma ev_create_withdrawal s0 (w : Withdrawal) :
  preserves (evolves s0) (create_document_withdrawal w).
Proof. ev_open s0. Qed.

Lemma ev_create_order s0 (o : Order) :
  preserves (evolves s0) (create_document_order o).
Proof. ev_open s0. Qed.

Lemma ev_create_pricesnapshot s0 (ok : bool) (p : PriceSnapshot) :
  preserves (evolves s0) (create_document_pricesnapshot ok p).
Proof. destruct ok; ev_open s0. Qed.

Ltac ev_prim s0 :=
  idtac; match goal with
  | |- preserves _ (create_document_deposit _) => apply ev_create_deposit
  | |- preserves _ (create_document_withdrawal _) => apply ev_create_withdrawal
  | |- preserves _ (create_document_order _) => apply ev_create_order
  | |- preserves _ (create_document_pricesnapshot _ _) => apply ev_create_pricesnapshot
  | |- preserves _ (modify _) => apply pres_modify; ev_open s0
  end.

Lemma ev_fetch_prices s0 (e : Env) : preserves (evolves s0) (fetch_prices e).
Proof. unfold fetch_prices. pres_with ltac:(ev_prim s0). Qed.

Lemma ev_create_deposit_handler s0 (p : DepositPayload) :
  preserves (evolves s0) (create_deposit hash_password p).
Proof. unfold create_deposit. pres_with ltac:(ev_prim s0). Qed.

Lemma ev_create_withdrawal_handler s0 (p : WithdrawalPayload) :
  preserves (evolves s0) (create_withdrawal hash_password p).
Proof. unfold create_withdrawal. pres_with ltac:(ev_prim s0). Qed.

Lemma ev_approve_withdrawal s0 (p : AdminApprovePayload) :
  preserves (evolves s0) (approve_withdrawal hash_password p).
Proof. unfold approve_withdrawal. pres_with ltac:(ev_prim s0). Qed.

Lemma ev_market_order s0 (e : Env) (p : OrderPayload) :
  preserves (evolves s0) (market_order hash_password e p).
Proof.
  unfold market_order. apply pres_bind; [apply pres_auth|intro user].
  apply pres_bind; [apply ev_fetch_prices|intro ps].
  pres_with ltac:(ev_prim s0).
Qed.

Lemma ev_list_wallets s0 (e pw : string) :
  preserves (evolves s0) (list_wallets hash_password e pw).
Proof. unfold list_wallets. pres_with ltac:(ev_prim s0). Qed.

Lemma wf_list_wallets (e pw : string) :
  preserves (fun s => docs_wf s = true) (list_wallets hash_password e pw).
Proof. unfold list_wallets. pres_with wf_prim. Qed.

(** *** A new account *)

Lemma find_one_none {A} (p : A -> bool) (c : Coll A) :
  find_one p c = None -> existsb (fun d => p (snd d)) c = false.
Proof.
  unfold find_one. induction c as [|d r IH]; [reflexivity|].
  cbn [find existsb]. destruct (p (snd d)); [discriminate|]. exact IH.
Qed.

Lemma distinct_app_single (l : list string) (x : string) :
  distinct l = true -> mem x l = false -> distinct (l ++ [x]) = true.
Proof.
  induction l as [|y r IH]; [reflexivity|].
  cbn [app distinct]. unfold mem in *. cbn [existsb]. intros D Hx.
  apply andb_prop in D. destruct D as [Dy Dr].
  apply orb_false_elim in Hx. destruct Hx as [Hxy Hxr].
  apply andb_true_intro. split; [|now apply IH].
  apply negb_true_iff. rewrite existsb_app. apply orb_false_intro.
  - now apply negb_true_iff.
  - cbn [existsb]. rewrite String.eqb_sym, Hxy. reflexivity.
Qed.

Lemma email_unused (e : string) (s : World) :
  find_one (fun u => String.eqb (email u) e) (users s) = None ->
  mem e (emails s) = false.
Proof.
  intro F. apply find_one_none in F. unfold mem, emails. rewrite existsb_map.
  rewrite <- F. clear F. induction (users s) as [|d r IH]; [reflexivity|].
  cbn [existsb]. now rewrite IH, String.eqb_sym.
Qed.

Lemma with_account_docs_wf (u : User) (s : World) :
  docs_wf s = true -> docs_wf (with_account u s) = true.
Proof.
  intro H. apply docs_wf_spec in H. destruct H as (H1 & H2 & H3 & H4 & H5 & H6).
  apply docs_wf_spec. unfold with_account.
  cbn [users wallets deposits withdrawals orders pricesnapshots next_oid].
  repeat split; auto 6 using coll_wf_S, coll_wf_app_fresh.
  change (wallets s ++ [(S (next_oid s), mkWallet (next_oid s) "BTC" 0 0);
                        (S (S (next_oid s)), mkWallet (next_oid s) "ETH" 0 0);
                        (S (S (S (next_oid s))), mkWallet (next_oid s) "USDT" 0 0)])
    with (wallets s ++ ([(S (next_oid s), mkWallet (next_oid s) "BTC" 0 0)]
                        ++ [(S (S (next_oid s)), mkWallet (next_oid s) "ETH" 0 0)]
                        ++ [(S (S (S (next_oid s))), mkWallet (next_oid s) "USDT" 0 0)])).
  rewrite !app_assoc. auto 6 using coll_wf_S, coll_wf_app_fresh.
Qed.

Lemma with_account_accounts_wf (u : User) (s : World) :
  docs_wf s = true -> accounts_wf s = true ->
  find_one (fun x => String.eqb (email x) (email u)) (users s) = None ->
  accounts_wf (with_account u s) = true.
Proof.
  intros D H F. unfold accounts_wf in *.
  apply andb_prop in H. destruct H as [H C].
  apply andb_prop in H. destruct H as [H O].
  apply andb_prop in H. destruct H as [V E].
  repeat (apply andb_true_intro; split).
  - unfold wallets_valid, with_account in *. cbn [wallets].
    rewrite forallb_app, V. reflexivity.
  - unfold emails_unique, emails, with_account in *. cbn [users].
    rewrite map_app. cbn [map snd]. apply distinct_app_single; [exact E|].
    now apply email_unused.
  - unfold wallets_owned, with_account in *. cbn [users wallets].
    rewrite forallb_app. apply andb_true_intro. split.
    + rewrite forallb_forall in *. intros d Hd. rewrite existsb_app.
      apply orb_true_intro. left. exact (O d Hd).
    + cbn [forallb snd w_user_id]. rewrite !existsb_app. cbn [existsb fst].
      rewrite Nat.eqb_refl, !orb_true_r. reflexivity.
  - unfold wallets_complete, with_account in *. cbn [users wallets].
    rewrite forallb_app. apply andb_true_intro. split.
    + rewrite forallb_forall in *. intros x Hx. specialize (C x Hx).
      rewrite forallb_forall in *. intros a Ha. rewrite existsb_app.
      apply orb_true_intro. left. exact (C a Ha).
    + cbn [forallb fst Wallet_assets]. rewrite !existsb_app.
      unfold wallet_key. cbn [existsb snd w_user_id w_asset].
      rewrite Nat.eqb_refl. cbn. rewrite !orb_true_r. reflexivity.
Qed.

Lemma with_account_store_wf (u : User) (s : World) :
  store_wf s = true ->
  find_one (fun x => String.eqb (email x) (email u)) (users s) = None ->
  store_wf (with_account u s) = true.
Proof.
  unfold store_wf. intros H F. apply andb_prop in H. destruct H as [D A].
  now rewrite with_account_docs_wf, with_account_accounts_wf.
Qed.

Lemma ledger_handler_store_wf {A} (c : M A) (s : World) :
  preserves (fun x => docs_wf x = true) c ->
  preserves (evolves s) c ->
  store_wf s = true -> store_wf (exec c s) = true.
Proof.
  unfold store_wf, exec. intros Hd He H. apply andb_prop in H. destruct H as [D A0].
  specialize (Hd s D). specialize (He s (evolves_refl s)).
  destruct He as (Hw & Hu & _). cbv beta in Hd.
  now rewrite Hd, (accounts_wf_keys s _ Hw Hu).
Qed.

Lemma handle_store_wf (r : Request) (s : World) :
  store_wf s = true -> store_wf (handle hash_password r s) = true.
Proof.
  intro H. destruct r as [p|p|e pw|p|p|p|e p|e|e pw]; cbn [handle].
  - destruct (find_one (fun u => String.eqb (email u) (ap_email p)) (users s)) as [d|] eqn:F.
    + unfold exec. now rewrite (register_taken hash_password p s d F).
    + unfold exec. rewrite (register_run hash_password p s F). cbn [snd].
      now apply with_account_store_wf.
  - unfold exec, login. now rewrite auth_required_state.
  - apply ledger_handler_store_wf; auto using wf_list_wallets, ev_list_wallets.
  - apply ledger_handler_store_wf;
      auto using wf_create_deposit_handler, ev_create_deposit_handler.
  - apply ledger_handler_store_wf;
      auto using wf_create_withdrawal_handler, ev_create_withdrawal_handler.
  - apply ledger_handler_store_wf; auto using wf_approve_withdrawal, ev_approve_withdrawal.
  - apply ledger_handler_store_wf; auto using wf_market_order, ev_market_order.
  - apply ledger_handler_store_wf; auto using wf_fetch_prices, ev_fetch_prices.
  - destruct (find_one (fun u => String.eqb (email u) e) (users s)) as [d|] eqn:F.
    + unfold exec. now rewrite (bootstrap_admin_taken hash_password e pw s d F).
    + unfold exec. rewrite (bootstrap_admin_run hash_password e pw s F). cbn [snd].
      now apply with_account_store_wf.
Qed.

Lemma serve_store_wf (rs : list Request) (s : World) :
  store_wf s = true -> store_wf (serve hash_password rs s) = true.
Proof.
  revert s. induction rs as [|r rs IH]; intros s H; [exact H|].
  cbn [serve fold_left]. apply IH. now apply handle_store_wf.
Qed.

Lemma store_wf_parts (s : World) :
  store_wf s = true ->
  unique_ids (wallets s) = true /\ wallets_valid s = true /\
  ids_below (next_oid s) (users s) = true /\
  ids_below (next_oid s) (deposits s) = true /\
  ids_below (next_oid s) (withdrawals s) = true /\
  emails_unique s = true /\ wallets_owned s = true /\ wallets_complete s = true.
Proof.
  unfold store_wf, accounts_wf. intro H.
  apply andb_prop in H. destruct H as [D H].
  apply docs_wf_spec in D. destruct D as (D1 & D2 & D3 & D4 & _).
  unfold coll_wf in *.
  apply andb_prop in D1. apply andb_prop in D2.
  apply andb_prop in D3. apply andb_prop in D4.
  apply andb_prop in H. destruct H as [H C].
  apply andb_prop in H. destruct H as [H O].
  apply andb_prop in H. destruct H as [V E].
  tauto.
Qed.

(** X11. The store invariant: unique ids below the id counter in every
    collection, schema-valid wallet rows, unique emails, every wallet owned
    by a stored user and every user holding a BTC, an ETH and a USDT
    wallet.  Every sequence of requests keeps it, whatever the requests
    answer.  In particular the wallet ids stay unique and valid, and the
    next id is unused among deposits and withdrawals. *)
Theorem requests_keep_store_wf (rs : list Request) (s : World) :
  store_wf s = true ->
  let s' := serve hash_password rs s in
  store_wf s' = true /\ store_ok s' = true /\
  find_by_id (next_oid s') (deposits s') = None /\
  find_by_id (next_oid s') (withdrawals s') = None.
Proof.
  intros H s'. pose proof (serve_store_wf rs s H) as H'. fold s' in H'.
  destruct (store_wf_parts s' H') as (U & V & _ & Bd & Bw & _).
  split; [exact H'|]. split; [unfold store_ok; now rewrite U, V|].
  split; now apply ids_below_fresh.
Qed.

Lemma handle_keeps_rows (r : Request) (s : World) :
  exists lw lu lo,
    map wallet_row_key (wallets (handle hash_password r s))
      = map wallet_row_key (wallets s) ++ lw /\
    map user_row_key (users (handle hash_password r s))
      = map user_row_key (users s) ++ lu /\
    orders (handle hash_password r s) = orders s ++ lo.
Proof.
  assert (Same : forall s', s' = s ->
            exists lw lu lo,
              map wallet_row_key (wallets s') = map wallet_row_key (wallets s) ++ lw /\
              map user_row_key (users s') = map user_row_key (users s) ++ lu /\
              orders s' = orders s ++ lo).
  { intros s' ->. exists [], [], []. now rewrite !app_nil_r. }
  assert (Ev : forall s', evolves s s' ->
            exists lw lu lo,
              map wallet_row_key (wallets s') = map wallet_row_key (wallets s) ++ lw /\
              map user_row_key (users s') = map user_row_key (users s) ++ lu /\
              orders s' = orders s ++ lo).
  { intros s' (Hw & Hu & (l & Ho) & _). exists [], [], l.
    now rewrite Hw, Hu, !app_nil_r. }
  assert (New : forall u,
            exists lw lu lo,
              map wallet_row_key (wallets (with_account u s))
                = map wallet_row_key (wallets s) ++ lw /\
              map user_row_key (users (with_account u s))
                = map user_row_key (users s) ++ lu /\
              orders (with_account u s) = orders s ++ lo).
  { intro u. unfold with_account. cbn [users wallets orders].
    do 2 eexists. exists [].
    split; [apply map_app | split; [apply map_app | symmetry; apply app_nil_r]]. }
  destruct r as [p|p|e pw|p|p|p|e p|e|e pw]; cbn [handle]; unfold exec.
  - destruct (find_one (fun u => String.eqb (email u) (ap_email p)) (users s)) as [d|] eqn:F.
    + rewrite (register_taken hash_password p s d F). now apply Same.
    + rewrite (register_run hash_password p s F). apply New.
  - apply Same. unfold login. now rewrite auth_required_state.
  - apply Ev. apply ev_list_wallets, evolves_refl.
  - apply Ev. apply ev_create_deposit_handler, evolves_refl.
  - apply Ev. apply ev_create_withdrawal_handler, evolves_refl.
  - apply Ev. apply ev_approve_withdrawal, evolves_refl.
  - apply Ev. apply ev_market_order, evolves_refl.
  - apply Ev. apply ev_fetch_prices, evolves_refl.
  - destruct (find_one (fun u => String.eqb (email u) e) (users s)) as [d|] eqn:F.
    + rewrite (bootstrap_admin_taken hash_password e pw s d F). now apply Same.
    + rewrite (bootstrap_admin_run hash_password e pw s F). apply New.
Qed.

(** X12. No request deletes, reorders or re-keys anything: after any
    sequence of requests the wallet rows of before are still there in
    order with their id, owner and asset, the user rows with their id,
    email, password hash and admin flag, and the orders unchanged; rows are
    only ever appended. *)
Theorem rows_are_only_appended (rs : list Request) (s : World) :
  exists lw lu lo,
    map wallet_row_key (wallets (serve hash_password rs s))
      = map wallet_row_key (wallets s) ++ lw /\
    map user_row_key (users (serve hash_password rs s))
      = map user_row_key (users s) ++ lu /\
    orders (serve hash_password rs s) = orders s ++ lo.
Proof.
  revert s. induction rs as [|r rs IH]; intro s.
  - exists [], [], []. cbn. now rewrite !app_nil_r.
  - cbn [serve fold_left].
    destruct (IH (handle hash_password r s)) as (lw & lu & lo & Hw & Hu & Ho).
    destruct (handle_keeps_rows r s) as (lw0 & lu0 & lo0 & Hw0 & Hu0 & Ho0).
    exists (lw0 ++ lw), (lu0 ++ lu), (lo0 ++ lo).
    unfold serve in *. rewrite Hw, Hu, Ho, Hw0, Hu0, Ho0, !app_assoc. auto.
Qed.

Lemma complete_wallet_of (s : World) (uid : ObjectId) (a : string) :
  wallets_complete s = true ->
  In uid (map fst (users s)) ->
  mem a ["BTC"; "ETH"; "USDT"] = true ->
  wallet_of s uid a <> None.
Proof.
  intros C Hu Ha. unfold wallets_complete in C. rewrite forallb_forall in C.
  apply in_map_iff in Hu. destruct Hu as ([i u] & Hi & Hin). cbn in Hi. subst i.
  specialize (C _ Hin). cbn [fst] in C. rewrite forallb_forall in C.
  unfold mem in Ha. apply existsb_exists in Ha. destruct Ha as (k & Hk & Hak).
  apply String.eqb_eq in Hak. subst k. specialize (C a Hk).
  apply existsb_exists in C. destruct C as (d & Hd & Kd).
  unfold wallet_of, find_one. intro N.
  pose proof (find_none _ _ N d Hd) as X. cbv beta in X. congruence.
Qed.

(** X13. In every store reached from the empty one by requests, a market
    order for a positive amount that fails, for whatever reason, has moved
    no funds and stored no order. *)
Theorem reachable_trade_failure_atomic (rs : list Request) (e : Env) (p : OrderPayload)
    (err : Exn) (s' : World) :
  (0 < op_amount p)%Q ->
  market_order hash_password e p (serve hash_password rs empty_world) = (Raise err, s') ->
  wallets s' = wallets (serve hash_password rs empty_world) /\
  orders s' = orders (serve hash_password rs empty_world).
Proof.
  intros Hpos Hf.
  pose proof (serve_store_wf rs empty_world eq_refl) as W.
  destruct (store_wf_parts _ W) as (U & _ & _ & _ & _ & _ & _ & C).
  apply (market_order_failure_atomic hash_password e _ s' p err U Hpos); [|exact Hf].
  intros uid a Ha Hu. now apply complete_wallet_of.
Qed.

(** X14. After [register] on a well-formed store, [list_wallets] with the
    new credentials answers exactly the three new rows, BTC, ETH and USDT
    at 0/0, and writes nothing. *)
Theorem register_then_list_wallets (p : AuthPayload) (s : World) :
  store_wf s = true ->
  find_one (fun u => String.eqb (email u) (ap_email p)) (users s) = None ->
  let n := next_oid s in
  let s' := exec (register hash_password p) s in
  list_wallets hash_password (ap_email p) (ap_password p) s'
  = (Ret [(S n, mkWallet n "BTC" 0 0);
          (S (S n), mkWallet n "ETH" 0 0);
          (S (S (S n)), mkWallet n "USDT" 0 0)], s').
Proof.
  intros W F n s'. subst n.
  destruct (store_wf_parts s W) as (_ & _ & Bu & _ & _ & _ & O & _).
  assert (E1 : s' = snd (register hash_password p s)) by reflexivity.
  rewrite (register_run hash_password p s F) in E1. cbn [snd] in E1. clearbody s'.
  set (u := mkUser (before_at (ap_email p)) (ap_email p)
                   (hash_password (ap_password p)) st_new false) in *.
  pose proof (login_new_account hash_password u (ap_password p) s F eq_refl) as L.
  unfold login in L. cbn [ap_email ap_password u email is_admin] in L.
  unfold list_wallets. unfold bind at 1. subst s'. rewrite L.
  cbv [bind get ret]. cbn [id]. f_equal. f_equal.
  unfold with_account. cbn [wallets]. rewrite filter_app.
  assert (Old : filter (fun d => Nat.eqb (w_user_id (snd d)) (next_oid s)) (wallets s) = []).
  { unfold wallets_owned in O. rewrite forallb_forall in O.
    unfold ids_below in Bu. rewrite forallb_forall in Bu.
    induction (wallets s) as [|d r IH]; [reflexivity|].
    cbn [filter].
    assert (Nd : Nat.eqb (w_user_id (snd d)) (next_oid s) = false).
    { specialize (O d (or_introl eq_refl)). apply existsb_exists in O.
      destruct O as (x & Hx & Ex). apply Nat.eqb_eq in Ex.
      specialize (Bu x Hx). apply Nat.ltb_lt in Bu. apply Nat.eqb_neq. lia. }
    rewrite Nd. apply IH. intros y Hy. apply O. now right. }
  rewrite Old. cbn [filter snd w_user_id app].
  rewrite Nat.eqb_refl. reflexivity.
Qed.

End Invariants.

(** * Concrete runs of the further properties *)

Lemma register_then_login_witness :
  find_one (fun u => String.eqb (email u) "alice@laxo.io") (users empty_world) = None /\
  exists s',
    register sha alice empty_world = (Ret 0%nat, s') /\
    users s' = [(0%nat, mkUser "alice" "alice@laxo.io" "sha256:pw" st_new false)] /\
    wallets s' = [(1%nat, mkWallet 0%nat "BTC" 0 0);
                  (2%nat, mkWallet 0%nat "ETH" 0 0);
                  (3%nat, mkWallet 0%nat "USDT" 0 0)] /\
    login sha alice s' = (Ret (mkAuthUser 0%nat "alice@laxo.io" false), s').
Proof.
  split; [reflexivity|].
  apply (register_then_login sha alice empty_world). reflexivity.
Defined.

Lemma register_same_email_again_witness :
  ap_email (mkAuthPayload "alice@laxo.io" "other") = ap_email alice /\
  register sha (mkAuthPayload "alice@laxo.io" "other") world_alice
    = (Raise (HTTPException 400 "Email already registered"), world_alice).
Proof.
  split; [reflexivity|].
  apply (register_same_email_again sha alice (mkAuthPayload "alice@laxo.io" "other")
           empty_world).
  reflexivity.
Defined.

Lemma failed_requests_write_nothing_witness :
  wallets_valid world_funded = true /\
  (forall p err s', create_deposit sha p world_funded = (Raise err, s') -> s' = world_funded) /\
  (forall p err s',
     create_withdrawal sha p world_funded = (Raise err, s') -> s' = world_funded) /\
  (forall p err s',
     approve_withdrawal sha p world_funded = (Raise err, s') -> s' = world_funded).
Proof.
  split; [reflexivity|].
  apply (failed_requests_write_nothing sha world_funded). reflexivity.
Defined.

Lemma approve_withdrawal_guards_witness :
  let p := mkAdminApprovePayload "alice@laxo.io" "pw" (Some 9%nat) true in
  auth_required sha (aa_email p) (aa_password p) world_reserved
    = (Ret (mkAuthUser 0%nat "alice@laxo.io" false), world_reserved) /\
  approve_withdrawal sha p world_reserved
    = (Raise (HTTPException 403 "Admin only"), world_reserved).
Proof.
  cbv zeta. split; [reflexivity|].
  refine (proj1 (approve_withdrawal_guards sha world_reserved
            (mkAdminApprovePayload "alice@laxo.io" "pw" (Some 9%nat) true)
            (mkAuthUser 0%nat "alice@laxo.io" false) _) _); reflexivity.
Defined.



Lemma refresh_then_cached_witness :
  cache_is_fresh env_up world_alice = false /\
  (now env_up <= now env_soon < now env_up + 20000000)%Z /\
  fetch_prices env_up world_alice
    = (Ret (refreshed (Some 50000) (Some 3000)), world_cached) /\
  PRICE_CACHE world_cached = refreshed (Some 50000) (Some 3000) /\
  PRICE_CACHE_TS world_cached = Some (now env_up) /\
  fetch_prices env_soon world_cached
    = (Ret (refreshed (Some 50000) (Some 3000)), world_cached).
Proof.
  split; [reflexivity|]. split; [cbv [now env_up env_soon]; lia|].
  apply (refresh_then_cached env_up env_soon world_alice (Some 50000) (Some 3000));
    try reflexivity.
  cbv [now env_up env_soon]. lia.
Defined.

Lemma expired_cache_is_refreshed_witness :
  PRICE_CACHE_TS world_cached = Some 1000000%Z /\
  (20000000 <= now env_later - 1000000 < 86400000000)%Z /\
  fst (fetch_prices env_later world_cached) = Ret (refreshed (Some 60000) (Some 3500)) /\
  PRICE_CACHE (exec (fetch_prices env_later) world_cached)
    = refreshed (Some 60000) (Some 3500) /\
  PRICE_CACHE_TS (exec (fetch_prices env_later) world_cached) = Some (now env_later).
Proof.
  split; [reflexivity|]. split; [cbv [now env_later]; lia|].
  refine (proj1 (expired_cache_is_refreshed env_later world_cached 1000000%Z _ _)
                (Some 60000) (Some 3500) _); try reflexivity.
  cbv [now env_later]. lia.
Defined.

Lemma stale_cache_served_witness :
  PRICE_CACHE world_cached <> [] /\
  PRICE_CACHE_TS world_cached = Some 1000000%Z /\
  (now env_next_day - 1000000 = 1 * 86400000000 + 5000000)%Z /\
  fetch_prices env_next_day world_cached = (Ret (PRICE_CACHE world_cached), world_cached).
Proof.
  split; [discriminate|]. split; [reflexivity|]. split; [reflexivity|].
  apply (stale_cache_served env_next_day world_cached 1000000%Z 1%Z 5000000%Z);
    try reflexivity; try discriminate.
  lia.
Defined.

Lemma requests_keep_store_wf_witness :
  let rs := [POST_auth_register alice;
             POST_deposits_create (mkDepositPayload "alice@laxo.io" "pw" "USDT" 100);
             POST_admin_bootstrap "root@laxo.io" "pw"] in
  store_wf empty_world = true /\
  store_wf (serve sha rs empty_world) = true /\
  store_ok (serve sha rs empty_world) = true /\
  find_by_id (next_oid (serve sha rs empty_world)) (deposits (serve sha rs empty_world))
    = None /\
  find_by_id (next_oid (serve sha rs empty_world)) (withdrawals (serve sha rs empty_world))
    = None.
Proof.
  cbv zeta. split; [reflexivity|].
  apply (requests_keep_store_wf sha
           [POST_auth_register alice;
            POST_deposits_create (mkDepositPayload "alice@laxo.io" "pw" "USDT" 100);
            POST_admin_bootstrap "root@laxo.io" "pw"] empty_world).
  reflexivity.
Defined.

Lemma reachable_trade_failure_atomic_witness :
  let s := serve sha [POST_auth_register alice] empty_world in
  let p := mkOrderPayload "alice@laxo.io" "pw" "buy" "BTC" 1 in
  (0 < op_amount p)%Q /\
  exists s',
    market_order sha env_up p s = (Raise (HTTPException 400 "Insufficient USDT"), s') /\
    wallets s' = wallets s /\
    orders s' = orders s.
Proof.
  cbv zeta. split; [reflexivity|].
  eexists. split; [vm_compute; reflexivity|].
  apply (reachable_trade_failure_atomic sha [POST_auth_register alice] env_up
           (mkOrderPayload "alice@laxo.io" "pw" "buy" "BTC" 1)
           (HTTPException 400 "Insufficient USDT"));
    [reflexivity | vm_compute; reflexivity].
Defined.

Lemma register_then_list_wallets_witness :
  store_wf empty_world = true /\
  list_wallets sha "alice@laxo.io" "pw" world_alice
    = (Ret [(1%nat, mkWallet 0%nat "BTC" 0 0);
            (2%nat, mkWallet 0%nat "ETH" 0 0);
            (3%nat, mkWallet 0%nat "USDT" 0 0)], world_alice).
Proof.
  split; [reflexivity|].
  apply (register_then_list_wallets sha alice empty_world); reflexivity.
Defined.
